(** * Medical cost estimator and hospital recommendation

    A shallow embedding of [code.py]: the treatment cost table, the
    point-estimate formula with its three surcharges, the start-up check of
    the hospital sheet, the search of the hospital sheet by treatment and
    city with its city-less retry, and the report the script prints.

    Conventions of the model.
    - Python [int] is [Z]; the [float] obtained from [float(input())] is
      [pyfloat] (a rational, an infinity or a NaN); the estimate is a [Q]:
      every number the script computes is a half-integer far below 2^53, so
      the float arithmetic of the script is exact on it.
    - Python [str] is [string]; [lower], [strip] and [title] follow Python on
      the 7-bit ASCII range and leave other characters alone.
    - A dict literal is an association list in insertion order.
    - A spreadsheet cell is [option string]: [None] is a missing cell (NaN).
    - Two libraries read the texts they are given as small languages: pandas
      reads the search texts as regular expressions and the console reads
      printed texts as markup.  The model reads a fragment of each and says
      so where a text falls outside it ([Unread]). *)

From Stdlib Require Import Bool List ZArith QArith Lia Lqa Ascii String.
Import ListNotations.

Open Scope string_scope.
Open Scope Z_scope.

(* ================================================================== *)
(** ** Python string methods *)

Module PyStr.

Definition code (c : ascii) : nat := nat_of_ascii c.

Definition between (lo hi n : nat) : bool := Nat.leb lo n && Nat.leb n hi.

Definition is_upper (c : ascii) : bool := between 65 90 (code c).
Definition is_lower (c : ascii) : bool := between 97 122 (code c).
Definition is_cased (c : ascii) : bool := is_upper c || is_lower c.

(** [str.isspace] on ASCII: TAB, LF, VT, FF, CR, FS, GS, RS, US, SPACE. *)
Definition is_space (c : ascii) : bool :=
  between 9 13 (code c) || between 28 32 (code c).

Definition lower_char (c : ascii) : ascii :=
  if is_upper c then ascii_of_nat (code c + 32) else c.

Definition upper_char (c : ascii) : ascii :=
  if is_lower c then ascii_of_nat (code c - 32) else c.

(** [s.lower()] *)
Fixpoint lower (s : string) : string :=
  match s with
  | EmptyString => EmptyString
  | String c r => String (lower_char c) (lower r)
  end.

Fixpoint lstrip (s : string) : string :=
  match s with
  | EmptyString => EmptyString
  | String c r => if is_space c then lstrip r else s
  end.

Fixpoint rstrip (s : string) : string :=
  match s with
  | EmptyString => EmptyString
  | String c r =>
      match rstrip r with
      | EmptyString => if is_space c then EmptyString else String c EmptyString
      | r' => String c r'
      end
  end.

(** [s.strip()] *)
Definition strip (s : string) : string := rstrip (lstrip s).

(** [s.title()]: a cased character is upper-cased when the character before
    it is not cased, and lower-cased otherwise. *)
Fixpoint title_from (prev_cased : bool) (s : string) : string :=
  match s with
  | EmptyString => EmptyString
  | String c r =>
      String (if prev_cased then lower_char c else upper_char c)
             (title_from (is_cased c) r)
  end.

Definition title (s : string) : string := title_from false s.

(** [x in s] for strings: [x] occurs in [s] as a contiguous block. *)
Fixpoint contains (x s : string) : bool :=
  prefix x s ||
  match s with
  | EmptyString => false
  | String _ r => contains x r
  end.

(** [x in xs] for a list or tuple of strings, and for the keys of a dict. *)
Definition mem (x : string) (xs : list string) : bool :=
  existsb (String.eqb x) xs.

End PyStr.

(* ================================================================== *)
(** ** Dictionaries as association lists *)

Section Dict.
Context {V : Type}.

Definition dict := list (string * V).

Fixpoint dict_get (k : string) (d : dict) : option V :=
  match d with
  | [] => None
  | (k', v) :: d' => if String.eqb k k' then Some v else dict_get k d'
  end.

Definition dict_keys (d : dict) : list string := map fst d.

(** [d.get(k, default)] *)
Definition dict_get_default (k : string) (default : V) (d : dict) : V :=
  match dict_get k d with
  | Some v => v
  | None => default
  end.

End Dict.

Arguments dict V : clear implicits.

(* ================================================================== *)
(** ** The treatment cost table *)

Definition CostRange : Type := (Z * Z)%type.

Definition treatment_costs : dict (dict CostRange) :=
  [ ("cold/flu",
      [("public", (50, 200)); ("private", (300, 600)); ("specialty", (800, 1200))]);
    ("fever",
      [("public", (50, 250)); ("private", (300, 600)); ("specialty", (1000, 1800))]);
    ("diabetes check-up",
      [("public", (0, 0)); ("private", (600, 1200)); ("specialty", (2500, 4000))]);
    ("orthopedic",
      [("public", (5000, 8000)); ("private", (20000, 25000)); ("specialty", (35000, 40000))]);
    ("cardiac",
      [("public", (70000, 100000)); ("private", (150000, 200000)); ("specialty", (300000, 350000))]);
    ("neurology",
      [("public", (40000, 60000)); ("private", (120000, 150000)); ("specialty", (250000, 300000))]);
    ("skin allergy",
      [("public", (100, 300)); ("private", (600, 2000)); ("specialty", (3000, 3500))]);
    ("dental care",
      [("public", (300, 600)); ("private", (2000, 2500)); ("specialty", (4000, 5000))]) ].

(** The tuple tested by [hospital_type not in ("public", "private", "specialty")]. *)
Definition hospital_types : list string := ["public"; "private"; "specialty"].

(* ================================================================== *)
(** ** The estimate *)

(** The value of [float(...)]: every finite double is a rational. *)
Inductive pyfloat : Type :=
| Finite (q : Q)
| PosInf
| NegInf
| NaN.

(** [x > n] for a float [x] and an int literal [n]. *)
Definition float_gt (x : pyfloat) (n : Z) : bool :=
  match x with
  | Finite q => if Qlt_le_dec (inject_Z n) q then true else false
  | PosInf => true
  | NegInf => false
  | NaN => false
  end.

(** What the script calls an uncaught exception. *)
Inductive PyExc : Type :=
| ValueError_missing (cols : list string)   (* line 25 *)
| ValueError_setitem (column : string)     (* a frame stored under one column name *)
| AttributeError_str (column : string)     (* [.str] on the frame that a repeated
                                              column name selects *)
| KeyError (k : string).

(** [min_base_cost, max_base_cost = treatment_costs[treatment].get(hospital_type, (0, 0))];
    the subscript raises [KeyError] on an absent treatment. *)
Definition base_range (treatment hospital_type : string) : PyExc + CostRange :=
  match dict_get treatment treatment_costs with
  | None => inl (KeyError treatment)
  | Some by_type => inr (dict_get_default hospital_type (0, 0) by_type)
  end.

(** [(min_base_cost + max_base_cost) / 2], Python's true division. *)
Definition average (r : CostRange) : Q := (inject_Z (fst r + snd r) / 2)%Q.

Definition surcharge (applies : bool) (amount : Q) (cost : Q) : Q :=
  if applies then (cost + amount)%Q else cost.

(** The three [if ...: estimated_cost += ...] statements, in program order. *)
Definition estimated_cost (r : CostRange) (smoker : string) (bmi : pyfloat) (age : Z) : Q :=
  let c0 := average r in
  let c1 := surcharge (String.eqb smoker "yes") 1000 c0 in
  let c2 := surcharge (float_gt bmi 30) 500 c1 in
  surcharge (age >? 60) 1000 c2.

Record EstimateResult : Type := mkEstimate {
  pointEstimate : Q;
  range : CostRange
}.

(** Lines 84-92 as one function of the validated choices and the profile. *)
Definition estimate (treatment hospital_type smoker : string) (bmi : pyfloat) (age : Z)
  : PyExc + EstimateResult :=
  match base_range treatment hospital_type with
  | inl e => inl e
  | inr r => inr (mkEstimate (estimated_cost r smoker bmi age) r)
  end.

(* ================================================================== *)
(** ** Regular expressions, as far as the script can meet them

    [Series.str.contains(pat, na=False)] is called with pandas' default
    [regex=True]: [pat] is compiled once with [re.compile] and a row is kept
    when [re.search] finds a match anywhere in its text.  The model reads the
    patterns made of ordinary characters and of [.] (any character but a line
    feed); on such a pattern without [.] the search is plain substring
    containment.  A pattern that uses any other regular-expression syntax is
    left uninterpreted: [re_compile] answers [None] for it. *)

Module PyRe.

Inductive atom : Type :=
| Lit (c : ascii)
| AnyChar.

Definition pattern : Type := list atom.

(** The characters with a meaning of their own in Python's [re] syntax. *)
Definition metachars : string := ".^$*+?{}[]\|()".

Fixpoint occurs (c : ascii) (s : string) : bool :=
  match s with
  | EmptyString => false
  | String d r => Ascii.eqb c d || occurs c r
  end.

Definition is_meta (c : ascii) : bool := occurs c metachars.

Fixpoint re_compile (pat : string) : option pattern :=
  match pat with
  | EmptyString => Some []
  | String c r =>
      match re_compile r with
      | None => None
      | Some p =>
          if Ascii.eqb c "." then Some (AnyChar :: p)
          else if is_meta c then None
          else Some (Lit c :: p)
      end
  end.

Definition atom_accepts (a : atom) (c : ascii) : bool :=
  match a with
  | Lit d => Ascii.eqb d c
  | AnyChar => negb (Ascii.eqb c "010")
  end.

(** [p] matches at the very start of [s]. *)
Fixpoint re_match (p : pattern) (s : string) : bool :=
  match p, s with
  | [], _ => true
  | _ :: _, EmptyString => false
  | a :: p', String c r => atom_accepts a c && re_match p' r
  end.

(** [re.search]: [p] matches at some position of [s]. *)
Fixpoint re_search (p : pattern) (s : string) : bool :=
  re_match p s ||
  match s with
  | EmptyString => false
  | String _ r => re_search p r
  end.

(** The pattern that spells out a text character by character. *)
Fixpoint literal (s : string) : pattern :=
  match s with
  | EmptyString => []
  | String c r => Lit c :: literal r
  end.

(** A text free of metacharacters: as a pattern it denotes itself. *)
Fixpoint plain (pat : string) : bool :=
  match pat with
  | EmptyString => true
  | String c r => negb (is_meta c) && plain r
  end.

End PyRe.

(* ================================================================== *)
(** ** The hospital sheet *)

Definition cell : Type := option string.

(** The sheet as [pd.read_excel] hands it over: the header row and the data
    rows, a cell per column (a row shorter than the header is padded with
    missing cells). *)
Record RawFrame : Type := mkRawFrame {
  raw_columns : list string;
  raw_rows : list (list cell)
}.

Record HospitalRecord : Type := mkHospital {
  hospital_name : cell;          (* column "hospital name", left as read *)
  best_treatments : string;
  city : string;
  hospital_type : string
}.

(** [hospital_df] after lines 19-34. *)
Record Frame : Type := mkFrame {
  columns : list string;
  rows : list HospitalRecord
}.

Definition expected_cols : list string :=
  ["hospital name"; "best_treatments"; "city"; "hospital _type"].

(** [hospital_df.columns.str.strip().str.lower()] *)
Definition normalize_columns (cols : list string) : list string :=
  map (fun c => PyStr.lower (PyStr.strip c)) cols.

(** [[c for c in expected_cols if c not in hospital_df.columns]] *)
Definition missing_columns (cols : list string) : list string :=
  filter (fun c => negb (PyStr.mem c cols)) expected_cols.

(** [rename(columns={'hospital _type': 'hospital_type'})] *)
Definition rename_columns (cols : list string) : list string :=
  map (fun c => if String.eqb c "hospital _type" then "hospital_type" else c) cols.

Fixpoint index_of (name : string) (cols : list string) : option nat :=
  match cols with
  | [] => None
  | c :: cols' =>
      if String.eqb name c then Some O
      else option_map S (index_of name cols')
  end.

Definition cell_at (cols : list string) (name : string) (row : list cell) : cell :=
  match index_of name cols with
  | Some i => nth i row None
  | None => None
  end.

(** [.fillna("").astype(str).str.strip()] *)
Definition clean (c : cell) : string :=
  PyStr.strip (match c with Some s => s | None => "" end).

Definition read_row (cols : list string) (row : list cell) : HospitalRecord :=
  {| hospital_name := cell_at cols "hospital name" row;
     best_treatments := clean (cell_at cols "best_treatments" row);
     city := clean (cell_at cols "city" row);
     hospital_type := clean (cell_at cols "hospital_type" row) |}.

(** The columns that lines 32-34 clean, in that order. *)
Definition text_columns : list string := ["best_treatments"; "city"; "hospital_type"].

(** How many columns go by the name [name]. *)
Definition occurrences (name : string) (cols : list string) : nat :=
  List.length (filter (String.eqb name) cols).

(** The first of the text columns whose name labels several columns: two
    header names can normalise to one.  [hospital_df[name]] is then a frame,
    which has no [.str]. *)
Definition repeated_text_column (cols : list string) : option string :=
  find (fun name => Nat.ltb 1 (occurrences name cols)) text_columns.

(** Lines 19-34: the start-up check and the clean-up of the three text
    columns; a missing column is an uncaught [ValueError], a text column
    present twice an uncaught [AttributeError]. *)
Definition load (f : RawFrame) : PyExc + Frame :=
  let cols := normalize_columns (raw_columns f) in
  match missing_columns cols with
  | (_ :: _) as missing => inl (ValueError_missing missing)
  | [] =>
      let cols' := rename_columns cols in
      match repeated_text_column cols' with
      | Some name => inl (AttributeError_str name)
      | None => inr {| columns := cols'; rows := map (read_row cols') (raw_rows f) |}
      end
  end.

(* ================================================================== *)
(** ** Matching hospitals *)

(** [bt_series.str.contains(treatment_lc, na=False)], row by row. *)
Definition bt_mask (pt : PyRe.pattern) (r : HospitalRecord) : bool :=
  PyRe.re_search pt (PyStr.lower (best_treatments r)).

(** [city_series.str.contains(city_lc, na=False)], row by row. *)
Definition city_mask (pc : PyRe.pattern) (r : HospitalRecord) : bool :=
  PyRe.re_search pc (PyStr.lower (city r)).

(** [hospital_df[mask]] of line 115. *)
Definition primary (pt pc : PyRe.pattern) (df : list HospitalRecord) : list HospitalRecord :=
  filter (fun r => bt_mask pt r && city_mask pc r) df.

(** The frame of line 119. *)
Definition fallback (pt : PyRe.pattern) (df : list HospitalRecord) : list HospitalRecord :=
  filter (bt_mask pt) df.

(** [df.empty] for a frame that has columns. *)
Definition empty {A : Type} (l : list A) : bool :=
  match l with [] => true | _ :: _ => false end.

(** Lines 113-119 on compiled patterns: [nearby] and whether the retry ran. *)
Definition nearby_of (pt pc : PyRe.pattern) (df : list HospitalRecord)
  : list HospitalRecord * bool :=
  let nearby := primary pt pc df in
  if empty nearby then (fallback pt df, true) else (nearby, false).

(** Lines 106-119.  [None]: one of the two texts is a pattern the model does
    not interpret. *)
Definition match_hospitals (df : list HospitalRecord) (treatment city : string)
  : option (list HospitalRecord * bool) :=
  let treatment_lc := PyStr.lower treatment in
  let city_lc := PyStr.lower city in
  match PyRe.re_compile treatment_lc, PyRe.re_compile city_lc with
  | Some pt, Some pc => Some (nearby_of pt pc df)
  | _, _ => None
  end.

(** The matcher as the specification words it: containment of the query text
    as a contiguous block, nothing else. *)
Definition spec_primary (df : list HospitalRecord) (treatment city_query : string)
  : list HospitalRecord :=
  filter (fun r => PyStr.contains (PyStr.lower treatment) (PyStr.lower (best_treatments r))
                   && PyStr.contains (PyStr.lower city_query) (PyStr.lower (city r))) df.

Definition spec_fallback (df : list HospitalRecord) (treatment : string)
  : list HospitalRecord :=
  filter (fun r => PyStr.contains (PyStr.lower treatment) (PyStr.lower (best_treatments r))) df.

Definition spec_match (df : list HospitalRecord) (treatment city : string)
  : list HospitalRecord * bool :=
  match spec_primary df treatment city with
  | [] => (spec_fallback df treatment, true)
  | found => (found, false)
  end.

(* ================================================================== *)
(** ** The report *)

(** [f"{r['hospital name']}"]: a missing name prints as [nan]. *)
Definition cell_str (c : cell) : string :=
  match c with Some s => s | None => "nan" end.

(** Lines 123-131: the test is on the columns of the frame, not on the row. *)
Definition hospital_info (cols : list string) (r : HospitalRecord) : string :=
  if PyStr.mem "hospital_type" cols
  then cell_str (hospital_name r) ++ " (" ++ PyStr.title (hospital_type r) ++ ")"
  else cell_str (hospital_name r).

(** A row of the printed table: number, hospital, city. *)
Definition TableRow : Type := (nat * string * string)%type.

Fixpoint number_from {A : Type} (i : nat) (l : list A) : list (nat * A) :=
  match l with
  | [] => []
  | x :: l' => (i, x) :: number_from (S i) l'
  end.

(** Lines 135-144: [head(10)], then a table row [idx+1, hospital_info,
    city.title()] per remaining record. *)
Definition nearby_display (cols : list string) (nearby : list HospitalRecord)
  : list TableRow :=
  map (fun ir => (fst ir, hospital_info cols (snd ir), PyStr.title (city (snd ir))))
      (number_from 1 (firstn 10 nearby)).

Inductive Message : Type :=
| InvalidNumericInput
| UnknownTreatment (treatment : string) (available : list string)
| InvalidHospitalType.

Inductive Output : Type :=
| Banner
| AvailableTreatments (keys : list string)
| ErrorLine (m : Message)
| Summary (name city_title type_title : string) (cost : Q) (typical : CostRange)
| NoHospitalsInCity (city_title treatment_title : string)
| HospitalTable (table : list TableRow)
| BarChart (bars : list (string * Q))
| Completed.

(** What the script has been given by the time it stops: the lines typed at
    the prompts, with the results of [int(...)] and [float(...)] on the
    stripped age and BMI lines ([None] when the conversion raises). *)
Record Inputs : Type := mkInputs {
  in_name : string;
  in_age : option Z;
  in_bmi : option pyfloat;
  in_gender : string;
  in_smoker : string;
  in_region : string;
  in_city : string;
  in_treatment : string;
  in_hospital_type : string
}.

Inductive Outcome : Type :=
| Uncaught (e : PyExc) (out : list Output)   (* traceback, exit status 1 *)
| Exit1 (out : list Output)                  (* [sys.exit(1)] *)
| Finished (out : list Output)               (* exit status 0 *)
| Unread (out : list Output).                (* [out] is printed, then the script
                                                searches or prints with a text
                                                the model does not interpret;
                                                how the run ends is left open *)

Definition printed (o : Outcome) : list Output :=
  match o with
  | Uncaught _ out | Exit1 out | Finished out | Unread out => out
  end.

Definition is_summary (o : Output) : bool :=
  match o with Summary _ _ _ _ _ => true | _ => false end.

Definition is_error_line (o : Output) : bool :=
  match o with ErrorLine _ => true | _ => false end.

Definition shows_estimate (o : Outcome) : bool := existsb is_summary (printed o).

(** The exit status of the process, where the model determines it. *)
Definition exit_status (o : Outcome) : option Z :=
  match o with
  | Uncaught _ _ | Exit1 _ => Some 1
  | Finished _ => Some 0
  | Unread _ => None
  end.

(** ** Console markup

    [console.print] and the cells of a [Table] read square-bracket tags in
    their text as markup, and a closing tag that closes nothing raises
    [MarkupError].  A tag starts with [[]; the model reads the texts without
    that character, which are printed as they are. *)

Module Markup.

Fixpoint plain (s : string) : bool :=
  match s with
  | EmptyString => true
  | String c r => negb (Ascii.eqb c "[") && plain r
  end.

(** The cells of a printed table. *)
Definition plain_output (o : Output) : bool :=
  match o with
  | HospitalTable table =>
      forallb (fun row : TableRow => plain (snd (fst row)) && plain (snd row)) table
  | _ => true
  end.

End Markup.

Definition is_table (o : Output) : bool :=
  match o with HospitalTable _ => true | _ => false end.

(** The model reads the table of lines 123-146 when the name column is there
    once ([r['hospital name']] is then one cell, not a series of cells) and no
    cell holds markup. *)
Definition table_read (cols : list string) (out : list Output) : bool :=
  Nat.leb (occurrences "hospital name" cols) 1 && forallb Markup.plain_output out.

(** Line 153: the bars of the chart, in the order of the inner dict. *)
Definition avg_cost_data (treatment : string) : PyExc + list (string * Q) :=
  match dict_get treatment treatment_costs with
  | None => inl (KeyError treatment)
  | Some by_type => inr (map (fun kv => (fst kv, average (snd kv))) by_type)
  end.

(** Lines 106-162, after the summary has been printed.  [apply(..., axis=1)]
    on a frame without rows gives back a frame, and pandas refuses to store a
    frame of several columns under the one name [hospital_info]: the script
    stops there with a [ValueError] when nothing matches at all. *)
Inductive Stage : Type :=
| Raised (out : list Output)
| Shown (out : list Output).

Definition recommend (df : Frame) (treatment city_lc : string) : option Stage :=
  match match_hospitals (rows df) treatment city_lc with
  | None => None
  | Some (nearby, retried) =>
      let warning :=
        if retried
        then [NoHospitalsInCity (PyStr.title city_lc) (PyStr.title treatment)]
        else [] in
      match nearby with
      | [] => Some (Raised warning)
      | _ :: _ =>
          Some (Shown (warning ++ [HospitalTable (nearby_display (columns df) nearby)])%list)
      end
  end.

(** Lines 65, 70 and 71: the three choices, stripped and lower-cased. *)
Definition chosen_city (i : Inputs) : string :=
  PyStr.lower (PyStr.strip (in_city i)).

Definition chosen_treatment (i : Inputs) : string :=
  PyStr.lower (PyStr.strip (in_treatment i)).

Definition chosen_hospital_type (i : Inputs) : string :=
  PyStr.lower (PyStr.strip (in_hospital_type i)).

(** The whole script.  [Summary] stands for the whole block of lines 94-100,
    the estimate of line 98 included. *)
Definition run (f : RawFrame) (i : Inputs) : Outcome :=
  match load f with
  | inl e => Uncaught e []
  | inr df =>
      match in_age i, in_bmi i with
      | Some age, Some bmi =>
          let name := PyStr.strip (in_name i) in
          let smoker := PyStr.lower (PyStr.strip (in_smoker i)) in
          let city_lc := chosen_city i in
          let treatment := chosen_treatment i in
          let hospital_type := chosen_hospital_type i in
          let keys := dict_keys treatment_costs in
          let asked := [Banner; AvailableTreatments keys] in
          if negb (PyStr.mem treatment keys)
          then
            (* line 75 prints the treatment as typed *)
            if Markup.plain treatment
            then Exit1 (asked ++ [ErrorLine (UnknownTreatment treatment keys)])%list
            else Unread asked
          else if negb (PyStr.mem hospital_type hospital_types)
          then Exit1 (asked ++ [ErrorLine InvalidHospitalType])%list
          else
            match estimate treatment hospital_type smoker bmi age with
            | inl e => Uncaught e asked
            | inr est =>
                (* lines 95 and 96 print the name and the city before the
                   estimate of line 98 *)
                if Markup.plain name && Markup.plain (PyStr.title city_lc)
                then
                  let report :=
                    (asked ++ [Summary name (PyStr.title city_lc) (PyStr.title hospital_type)
                                       (pointEstimate est) (range est)])%list in
                  match recommend df treatment city_lc with
                  | None => Unread report
                  | Some (Raised out) =>
                      Uncaught (ValueError_setitem "hospital_info") (report ++ out)%list
                  | Some (Shown out) =>
                      if table_read (columns df) out
                      then
                        match avg_cost_data treatment with
                        | inl e => Uncaught e (report ++ out)%list
                        | inr bars =>
                            Finished (report ++ out ++ [BarChart bars; Completed])%list
                        end
                      else Unread (report ++ filter (fun o => negb (is_table o)) out)%list
                  end
                else Unread asked
            end
      | _, _ => Exit1 [Banner; ErrorLine InvalidNumericInput]
      end
  end.

(* ================================================================== *)
(** ** Vocabulary of the properties *)

(** [x <= n] for a float [x] and an int literal [n]. *)
Definition float_le (x : pyfloat) (n : Z) : bool :=
  match x with
  | Finite q => if Qlt_le_dec (inject_Z n) q then false else true
  | PosInf => false
  | NegInf => true
  | NaN => false
  end.

(** [l1] is [l2] with some elements dropped, the others in their order. *)
Inductive Subseq {A : Type} : list A -> list A -> Prop :=
| Subseq_nil : Subseq [] []
| Subseq_skip : forall x l1 l2, Subseq l1 l2 -> Subseq l1 (x :: l2)
| Subseq_keep : forall x l1 l2, Subseq l1 l2 -> Subseq (x :: l1) (x :: l2).

(** The sheet lacks one of the four required columns. *)
Definition sheet_incomplete (f : RawFrame) : bool :=
  negb (empty (missing_columns (normalize_columns (raw_columns f)))).

(** One of the three input failures the script reports itself. *)
Definition rejected (i : Inputs) : bool :=
  match in_age i, in_bmi i with
  | Some _, Some _ =>
      negb (PyStr.mem (chosen_treatment i) (dict_keys treatment_costs))
      || negb (PyStr.mem (chosen_hospital_type i) hospital_types)
  | _, _ => true
  end.

(** [s] begins, or ends, with a white-space character. *)
Definition starts_with_space (s : string) : bool :=
  match s with
  | EmptyString => false
  | String c _ => PyStr.is_space c
  end.

Fixpoint ends_with_space (s : string) : bool :=
  match s with
  | EmptyString => false
  | String c EmptyString => PyStr.is_space c
  | String _ r => ends_with_space r
  end.

(** Two rows whose treatments and city differ at most in letter case. *)
Definition same_up_to_case (r r' : HospitalRecord) : Prop :=
  PyStr.lower (best_treatments r) = PyStr.lower (best_treatments r') /\
  PyStr.lower (city r) = PyStr.lower (city r').

(** The same answers with the smoker, city, treatment and hospital-type lines
    retyped in the form the script compares them in. *)
Definition canonical (i : Inputs) : Inputs :=
  {| in_name := in_name i;
     in_age := in_age i;
     in_bmi := in_bmi i;
     in_gender := in_gender i;
     in_smoker := PyStr.lower (PyStr.strip (in_smoker i));
     in_region := in_region i;
     in_city := chosen_city i;
     in_treatment := chosen_treatment i;
     in_hospital_type := chosen_hospital_type i |}.

(** What the search has printed when it stops. *)
Definition stage_output (st : Stage) : list Output :=
  match st with Raised out | Shown out => out end.

Definition is_warning (o : Output) : bool :=
  match o with NoHospitalsInCity _ _ => true | _ => false end.


(* ================================================================== *)
(** ** Sample data *)

Definition apollo : HospitalRecord :=
  mkHospital (Some "Apollo") "Cardiac Surgery, Neurology" "Mumbai" "private".

(** A row whose city and type cells are blank. *)
Definition general : HospitalRecord :=
  mkHospital (Some "General") "cardiac" "" "".

Definition city_clinic : HospitalRecord :=
  mkHospital None "Fever" "Delhi" "public".

Definition sample_sheet : RawFrame :=
  mkRawFrame
    [" Hospital Name"; "Best_Treatments "; "City"; "Hospital _Type"]
    [ [Some "Apollo"; Some "Cardiac Surgery, Neurology"; Some " Mumbai "; Some "private"];
      [Some "General"; Some "cardiac"; None; None];
      [None; Some "Fever"; Some "Delhi"; Some "public"] ].

(** The same sheet without its city column. *)
Definition sheet_without_city : RawFrame :=
  mkRawFrame
    ["Hospital Name"; "Best_Treatments"; "Hospital _Type"]
    [ [Some "Apollo"; Some "Cardiac Surgery, Neurology"; Some "private"] ].

Definition sample_inputs (city_line treatment_line : string) : Inputs :=
  mkInputs "Asha" (Some 30) (Some (Finite 22)) "Female" "no" "west"
           city_line treatment_line " Private ".

(** Apollo as a sheet typed in capitals would have it. *)
Definition apollo_capitals : HospitalRecord :=
  mkHospital (Some "APOLLO") "CARDIAC SURGERY, NEUROLOGY" "MUMBAI" "PRIVATE".

(** Twelve hospitals of one city that all treat fever. *)
Definition twelve_wards : list HospitalRecord :=
  map (fun n => mkHospital (Some n) "Fever" "Delhi" "public")
      ["A"; "B"; "C"; "D"; "E"; "F"; "G"; "H"; "I"; "J"; "K"; "L"].

(* ================================================================== *)
(** ** Basic facts *)

Lemma mem_In (x : string) (xs : list string) :
  PyStr.mem x xs = true <-> In x xs.
Proof.
  unfold PyStr.mem. rewrite existsb_exists. split.
  - intros (y & Hy & E). apply String.eqb_eq in E. now subst.
  - intros H. exists x. split; [assumption | apply String.eqb_refl].
Qed.

Lemma mem_false (x : string) (xs : list string) :
  PyStr.mem x xs = false <-> ~ In x xs.
Proof.
  rewrite <- mem_In. destruct (PyStr.mem x xs); split; intuition congruence.
Qed.

Lemma lower_empty (s : string) : PyStr.lower s = "" <-> s = "".
Proof. destruct s; simpl; split; intros H; congruence. Qed.

Lemma empty_true {A : Type} (l : list A) : empty l = true <-> l = [].
Proof. destruct l; simpl; split; intros H; congruence. Qed.

Lemma filter_Subseq {A : Type} (p : A -> bool) (l : list A) :
  Subseq (filter p l) l.
Proof.
  induction l as [|x l IH]; simpl.
  - constructor.
  - destruct (p x); constructor; exact IH.
Qed.

Lemma filter_none {A : Type} (p : A -> bool) (l : list A) :
  filter p l = [] <-> forall x, In x l -> p x = false.
Proof.
  induction l as [|x l IH]; simpl.
  - split; [intros _ y [] | reflexivity].
  - destruct (p x) eqn:E; split.
    + discriminate.
    + intros H. specialize (H x (or_introl eq_refl)). congruence.
    + intros H y [<- | Hy]; [exact E | now apply IH].
    + intros H. apply IH. intros y Hy. apply H. now right.
Qed.

(** *** The cost table, entry by entry *)

Ltac each_of H :=
  simpl in H;
  repeat match type of H with
         | _ \/ _ => destruct H as [H | H]
         | False => destruct H
         end;
  subst.

Lemma table_entry (T K : string) :
  In T (dict_keys treatment_costs) -> In K hospital_types ->
  exists by_type mn mx,
    dict_get T treatment_costs = Some by_type /\
    dict_keys by_type = hospital_types /\
    dict_get K by_type = Some (mn, mx) /\
    0 <= mn <= mx.
Proof.
  intros HT HK. each_of HT; each_of HK;
    (eexists; eexists; eexists;
     split; [reflexivity | split; [reflexivity | split; [reflexivity | lia]]]).
Qed.

Lemma base_range_entry (T K : string) (by_type : dict CostRange) (r : CostRange) :
  dict_get T treatment_costs = Some by_type ->
  dict_get K by_type = Some r ->
  base_range T K = inr r.
Proof.
  intros HT HK. unfold base_range. rewrite HT.
  unfold dict_get_default, CostRange in *. now rewrite HK.
Qed.

(** *** Surcharges *)

Lemma float_le_not_gt (x : pyfloat) (n : Z) :
  float_le x n = true -> float_gt x n = false.
Proof.
  destruct x as [q| | |]; simpl; try congruence.
  destruct (Qlt_le_dec (inject_Z n) q); congruence.
Qed.

Lemma estimated_cost_sum (r : CostRange) (smoker : string) (bmi : pyfloat) (age : Z) :
  (estimated_cost r smoker bmi age ==
   average r
   + (if String.eqb smoker "yes" then 1000 else 0)
   + (if float_gt bmi 30 then 500 else 0)
   + (if age >? 60 then 1000 else 0))%Q.
Proof.
  unfold estimated_cost, surcharge.
  destruct (String.eqb smoker "yes"), (float_gt bmi 30), (age >? 60); ring.
Qed.

Lemma eqb_yes_false (smoker : string) :
  smoker <> "yes" -> String.eqb smoker "yes" = false.
Proof. intros H. now apply String.eqb_neq. Qed.

(** *** Patterns *)

Lemma dot_is_meta (c : ascii) :
  PyRe.is_meta c = false -> Ascii.eqb c "." = false.
Proof.
  intros H. destruct (Ascii.eqb c ".") eqn:E; [|reflexivity].
  apply Ascii.eqb_eq in E. subst c. discriminate H.
Qed.

Lemma compile_plain (pat : string) :
  PyRe.plain pat = true -> PyRe.re_compile pat = Some (PyRe.literal pat).
Proof.
  induction pat as [|c r IH]; simpl; [reflexivity|].
  intros H. apply andb_true_iff in H as [Hc Hr].
  apply negb_true_iff in Hc.
  rewrite (IH Hr), (dot_is_meta c Hc), Hc. reflexivity.
Qed.

Lemma compile_length (pat : string) (p : PyRe.pattern) :
  PyRe.re_compile pat = Some p -> List.length p = String.length pat.
Proof.
  revert p. induction pat as [|c r IH]; simpl; intros p H.
  - now inversion H.
  - destruct (PyRe.re_compile r) as [q|]; [|discriminate].
    specialize (IH q eq_refl).
    destruct (Ascii.eqb c "."); [|destruct (PyRe.is_meta c)];
      inversion H; subst; simpl; congruence.
Qed.

Lemma match_literal (x s : string) :
  PyRe.re_match (PyRe.literal x) s = prefix x s.
Proof.
  revert s. induction x as [|a x IH]; intros s.
  - destruct s; reflexivity.
  - destruct s as [|b s]; simpl; [reflexivity|].
    rewrite IH. destruct (ascii_dec a b) as [->|N].
    + now rewrite Ascii.eqb_refl.
    + apply Ascii.eqb_neq in N. now rewrite N.
Qed.

Lemma search_literal (x s : string) :
  PyRe.re_search (PyRe.literal x) s = PyStr.contains x s.
Proof.
  induction s as [|b s IH]; simpl PyRe.re_search; simpl PyStr.contains;
    rewrite match_literal; [reflexivity | now rewrite IH].
Qed.

Lemma search_nil (s : string) : PyRe.re_search [] s = true.
Proof. destruct s; reflexivity. Qed.

Lemma search_empty_text (p : PyRe.pattern) : PyRe.re_search p "" = empty p.
Proof. destruct p; reflexivity. Qed.

(** Every key of the cost table is free of metacharacters. *)
Lemma keys_plain (T : string) :
  In T (dict_keys treatment_costs) -> PyRe.plain T = true.
Proof. intros H. each_of H; reflexivity. Qed.

(** On two texts free of metacharacters the search of the script is the
    containment test of the specification. *)
Lemma match_hospitals_plain (df : list HospitalRecord) (treatment city_query : string) :
  PyRe.plain (PyStr.lower treatment) = true ->
  PyRe.plain (PyStr.lower city_query) = true ->
  match_hospitals df treatment city_query = Some (spec_match df treatment city_query).
Proof.
  intros Ht Hc. unfold match_hospitals.
  rewrite (compile_plain _ Ht), (compile_plain _ Hc).
  unfold nearby_of, spec_match, primary, fallback, spec_primary, spec_fallback,
    bt_mask, city_mask.
  f_equal.
  assert (E1 : forall l, filter (fun r => PyRe.re_search (PyRe.literal (PyStr.lower treatment))
                                           (PyStr.lower (best_treatments r))) l
                         = filter (fun r => PyStr.contains (PyStr.lower treatment)
                                              (PyStr.lower (best_treatments r))) l).
  { intros l. apply filter_ext. intros r. apply search_literal. }
  assert (E2 : forall l,
             filter (fun r => PyRe.re_search (PyRe.literal (PyStr.lower treatment))
                                (PyStr.lower (best_treatments r))
                              && PyRe.re_search (PyRe.literal (PyStr.lower city_query))
                                   (PyStr.lower (city r))) l
             = filter (fun r => PyStr.contains (PyStr.lower treatment)
                                  (PyStr.lower (best_treatments r))
                                && PyStr.contains (PyStr.lower city_query)
                                     (PyStr.lower (city r))) l).
  { intros l. apply filter_ext. intros r. now rewrite !search_literal. }
  rewrite E1, E2.
  destruct (filter _ df); reflexivity.
Qed.

(** *** The loaded sheet *)

Lemma load_inv (f : RawFrame) (df : Frame) :
  load f = inr df ->
  missing_columns (normalize_columns (raw_columns f)) = [] /\
  repeated_text_column (rename_columns (normalize_columns (raw_columns f))) = None /\
  df = {| columns := rename_columns (normalize_columns (raw_columns f));
          rows := map (read_row (rename_columns (normalize_columns (raw_columns f))))
                      (raw_rows f) |}.
Proof.
  unfold load.
  destruct (missing_columns (normalize_columns (raw_columns f))); [|discriminate].
  destruct (repeated_text_column _); [discriminate|].
  intros H. inversion H. auto.
Qed.

Lemma loaded_has_type_column (f : RawFrame) (df : Frame) :
  load f = inr df -> PyStr.mem "hospital_type" (columns df) = true.
Proof.
  intros H. destruct (load_inv f df H) as (M & _ & ->). simpl.
  unfold missing_columns in M.
  assert (Hm := proj1 (filter_none _ _) M "hospital _type").
  simpl in Hm. specialize (Hm (or_intror (or_intror (or_intror (or_introl eq_refl))))).
  apply negb_false_iff in Hm. apply mem_In in Hm. apply mem_In.
  unfold rename_columns.
  change "hospital_type"
    with ((fun c => if String.eqb c "hospital _type" then "hospital_type" else c)
            "hospital _type").
  now apply in_map.
Qed.

Lemma load_incomplete (f : RawFrame) :
  sheet_incomplete f = true ->
  load f = inl (ValueError_missing (missing_columns (normalize_columns (raw_columns f)))).
Proof.
  unfold sheet_incomplete, load. intros H.
  destruct (missing_columns (normalize_columns (raw_columns f))); [discriminate|reflexivity].
Qed.

(** *** The run, case by case *)

Lemma recommend_quiet (df : Frame) (treatment city_lc : string) (st : Stage) :
  recommend df treatment city_lc = Some st ->
  let out := match st with Raised out | Shown out => out end in
  existsb is_summary out = false /\ existsb is_error_line out = false.
Proof.
  unfold recommend.
  destruct (match_hospitals (rows df) treatment city_lc) as [[nearby retried]|];
    [|discriminate].
  destruct nearby, retried; intros H; inversion H; subst; simpl; auto.
Qed.

Lemma existsb_filter_false {A : Type} (p q : A -> bool) (l : list A) :
  existsb p l = false -> existsb p (filter q l) = false.
Proof.
  induction l as [|x l IH]; simpl; [reflexivity|].
  intros H. apply orb_false_iff in H as [Hx Hl].
  destruct (q x); simpl; [rewrite Hx|]; auto.
Qed.

(** The ways a run can go: the sheet does not load; an input is rejected, with
    its message unless the message itself is beyond the model; the name or the
    city is beyond the model; or the summary is printed, followed by whatever
    the search for hospitals adds. *)
Lemma run_cases (f : RawFrame) (i : Inputs) :
  (exists e, load f = inl e /\ run f i = Uncaught e [])
  \/
  (exists df, load f = inr df /\ rejected i = true /\
   ((exists asked m,
        run f i = Exit1 (asked ++ [ErrorLine m])%list /\
        existsb is_summary asked = false /\
        existsb is_error_line asked = false) \/
    (Markup.plain (chosen_treatment i) = false /\
     run f i = Unread [Banner; AvailableTreatments (dict_keys treatment_costs)])))
  \/
  (exists df, load f = inr df /\ rejected i = false /\
   Markup.plain (PyStr.strip (in_name i))
   && Markup.plain (PyStr.title (chosen_city i)) = false /\
   run f i = Unread [Banner; AvailableTreatments (dict_keys treatment_costs)])
  \/
  (exists df, load f = inr df /\ rejected i = false /\
   Markup.plain (PyStr.strip (in_name i))
   && Markup.plain (PyStr.title (chosen_city i)) = true /\
   exists age bmi by_type r tail,
     in_age i = Some age /\ in_bmi i = Some bmi /\
     dict_get (chosen_treatment i) treatment_costs = Some by_type /\
     dict_get (chosen_hospital_type i) by_type = Some r /\
     printed (run f i) =
       ([Banner; AvailableTreatments (dict_keys treatment_costs);
         Summary (PyStr.strip (in_name i)) (PyStr.title (chosen_city i))
                 (PyStr.title (chosen_hospital_type i))
                 (estimated_cost r (PyStr.lower (PyStr.strip (in_smoker i))) bmi age) r]
        ++ tail)%list /\
     existsb is_summary tail = false /\
     existsb is_error_line tail = false).
Proof.
  destruct (load f) as [e|df] eqn:L.
  { left. exists e. split; [reflexivity|]. unfold run. now rewrite L. }
  right. unfold run. rewrite L. cbv zeta. unfold rejected.
  destruct (in_age i) as [age|]; [destruct (in_bmi i) as [bmi|]|].
  2,3: left; exists df; split; [reflexivity|]; split; [reflexivity|]; left;
       exists [Banner], InvalidNumericInput; auto.
  destruct (PyStr.mem (chosen_treatment i) (dict_keys treatment_costs)) eqn:MT.
  2: { left. exists df. split; [reflexivity|]. split; [reflexivity|]. simpl negb. cbv iota.
       destruct (Markup.plain (chosen_treatment i)); [left | right; auto].
       exists [Banner; AvailableTreatments (dict_keys treatment_costs)],
              (UnknownTreatment (chosen_treatment i) (dict_keys treatment_costs)).
       auto. }
  destruct (PyStr.mem (chosen_hospital_type i) hospital_types) eqn:MK.
  2: { left. exists df. split; [reflexivity|]. split; [reflexivity|]. left.
       exists [Banner; AvailableTreatments (dict_keys treatment_costs)], InvalidHospitalType.
       auto. }
  right. apply mem_In in MT, MK.
  destruct (table_entry _ _ MT MK) as (by_type & mn & mx & HT & _ & HK & _).
  unfold estimate, avg_cost_data.
  rewrite (base_range_entry _ _ _ _ HT HK), HT.
  cbv beta iota zeta. simpl pointEstimate. simpl range.
  destruct (Markup.plain (PyStr.strip (in_name i))
            && Markup.plain (PyStr.title (chosen_city i))) eqn:MP.
  2: { left. exists df. auto. }
  right. exists df. split; [reflexivity|]. split; [reflexivity|]. split; [reflexivity|].
  exists age, bmi, by_type, (mn, mx).
  destruct (recommend df (chosen_treatment i) (chosen_city i)) as [st|] eqn:R.
  + destruct (recommend_quiet _ _ _ _ R) as [Q1 Q2].
    destruct st as [out|out]; simpl in Q1, Q2.
    * exists out. repeat split; auto.
    * destruct (table_read (columns df) out).
      -- eexists (out ++ [BarChart _; Completed])%list.
         repeat split; auto; rewrite existsb_app; simpl;
           [rewrite Q1 | rewrite Q2]; reflexivity.
      -- exists (filter (fun o => negb (is_table o)) out).
         repeat split; auto; now apply existsb_filter_false.
  + exists []. repeat split; auto.
Qed.

(* ================================================================== *)
(** ** The cost table and the estimate *)

Ltac pick := simpl; repeat (first [left; reflexivity | right]).

(** C8: the cost table has an entry for every pair of one of its treatment
    keys and one of the tiers public, private, specialty, and no other tier;
    every entry is a pair [(mn, mx)] with [0 <= mn <= mx]; hence for a
    validated treatment and tier both lookups succeed and the range of line
    84 is the table's entry, never the [(0, 0)] default of [.get]. *)
Theorem C8_table_fully_populated (T K : string) :
  In T (dict_keys treatment_costs) ->
  In K hospital_types ->
  exists by_type mn mx,
    dict_get T treatment_costs = Some by_type /\
    dict_keys by_type = hospital_types /\
    dict_get K by_type = Some (mn, mx) /\
    0 <= mn <= mx /\
    base_range T K = inr (mn, mx).
Proof.
  intros HT HK.
  destruct (table_entry T K HT HK) as (by_type & mn & mx & E1 & E2 & E3 & E4).
  exists by_type, mn, mx. repeat split; try assumption; try lia.
  now apply base_range_entry with by_type.
Qed.

Lemma C8_witness :
  exists by_type mn mx,
    dict_get "diabetes check-up" treatment_costs = Some by_type /\
    dict_keys by_type = hospital_types /\
    dict_get "public" by_type = Some (mn, mx) /\
    0 <= mn <= mx /\
    base_range "diabetes check-up" "public" = inr (mn, mx).
Proof.
  apply (C8_table_fully_populated "diabetes check-up" "public"); pick.
Defined.

Lemma float_gt_finite (q : Q) (n : Z) :
  float_gt (Finite q) n = true <-> (inject_Z n < q)%Q.
Proof.
  simpl. destruct (Qlt_le_dec (inject_Z n) q) as [L | L].
  - split; auto.
  - split; [discriminate | intros H; exfalso; exact (Qle_not_lt _ _ L H)].
Qed.

Lemma float_le_finite (q : Q) (n : Z) :
  float_le (Finite q) n = true <-> (q <= inject_Z n)%Q.
Proof.
  simpl. destruct (Qlt_le_dec (inject_Z n) q) as [L | L].
  - split; [discriminate | intros H; exfalso; exact (Qle_not_lt _ _ H L)].
  - split; auto.
Qed.

(** C1: for a treatment key [T] of the table and a tier [K], the estimate is
    the table's range [r] together with a point estimate which is the average
    [(min + max) / 2] of [r] when the answer to the smoker question is not
    yes, bmi <= 30 and age <= 60; answering yes adds exactly 1000, a bmi above
    30 adds exactly 500, an age above 60 adds exactly 1000, each whatever the
    other two are, and all three together add exactly 2500.  The bmi test is
    the comparison of the number with 30: a finite bmi [q] is surcharged
    exactly when 30 < q.  For dental care in a private hospital the range is
    (2000, 2500), and bmi 22 at age 30 gives 2250 for a non-smoker and 3250
    for a smoker; bmi 31 gives the non-smoker 2750, age 61 gives 3250, and a
    smoker with bmi 31 at age 61 gets 4750. *)
Theorem C1_point_estimate (T K : string) :
  In T (dict_keys treatment_costs) ->
  In K hospital_types ->
  (exists by_type r,
      dict_get T treatment_costs = Some by_type /\
      dict_get K by_type = Some r /\
      (forall smoker bmi age,
          estimate T K smoker bmi age
          = inr (mkEstimate (estimated_cost r smoker bmi age) r)) /\
      (forall smoker bmi age,
          smoker <> "yes" -> float_le bmi 30 = true -> age <= 60 ->
          (estimated_cost r smoker bmi age == average r)%Q) /\
      (forall smoker bmi age,
          smoker <> "yes" ->
          (estimated_cost r "yes" bmi age == estimated_cost r smoker bmi age + 1000)%Q) /\
      (forall smoker bmi bmi' age,
          float_le bmi 30 = true -> float_gt bmi' 30 = true ->
          (estimated_cost r smoker bmi' age == estimated_cost r smoker bmi age + 500)%Q) /\
      (forall smoker bmi age age',
          age <= 60 -> 60 < age' ->
          (estimated_cost r smoker bmi age' == estimated_cost r smoker bmi age + 1000)%Q) /\
      (forall smoker bmi bmi' age age',
          smoker <> "yes" -> float_le bmi 30 = true -> float_gt bmi' 30 = true ->
          age <= 60 -> 60 < age' ->
          (estimated_cost r "yes" bmi' age' == estimated_cost r smoker bmi age + 2500)%Q) /\
      (forall smoker bmi age,
          (estimated_cost r smoker bmi age ==
           average r
           + (if String.eqb smoker "yes" then 1000 else 0)
           + (if float_gt bmi 30 then 500 else 0)
           + (if age >? 60 then 1000 else 0))%Q) /\
      (forall smoker q age,
          smoker <> "yes" -> (q <= 30)%Q -> age <= 60 ->
          (estimated_cost r smoker (Finite q) age == average r)%Q) /\
      (forall smoker q q' age,
          (q <= 30)%Q -> (30 < q')%Q ->
          (estimated_cost r smoker (Finite q') age
           == estimated_cost r smoker (Finite q) age + 500)%Q) /\
      (forall smoker q q' age age',
          smoker <> "yes" -> (q <= 30)%Q -> (30 < q')%Q -> age <= 60 -> 60 < age' ->
          (estimated_cost r "yes" (Finite q') age'
           == estimated_cost r smoker (Finite q) age + 2500)%Q))
  /\
  (exists cost cost',
      estimate "dental care" "private" "no" (Finite 22) 30
      = inr (mkEstimate cost (2000, 2500)) /\
      estimate "dental care" "private" "yes" (Finite 22) 30
      = inr (mkEstimate cost' (2000, 2500)) /\
      (cost == 2250)%Q /\ (cost' == 3250)%Q)
  /\
  ((forall q, float_gt (Finite q) 30 = true <-> (30 < q)%Q) /\
   (forall q, float_le (Finite q) 30 = true <-> (q <= 30)%Q) /\
   float_gt PosInf 30 = true /\ float_gt NegInf 30 = false /\ float_gt NaN 30 = false)
  /\
  (exists heavy old all,
      estimate "dental care" "private" "no" (Finite 31) 30
      = inr (mkEstimate heavy (2000, 2500)) /\
      estimate "dental care" "private" "no" (Finite 22) 61
      = inr (mkEstimate old (2000, 2500)) /\
      estimate "dental care" "private" "yes" (Finite 31) 61
      = inr (mkEstimate all (2000, 2500)) /\
      (heavy == 2750)%Q /\ (old == 3250)%Q /\ (all == 4750)%Q).
Proof.
  intros HT HK. split.
  - destruct (table_entry T K HT HK) as (by_type & mn & mx & E1 & _ & E3 & _).
    exists by_type, (mn, mx).
    assert (GT : forall a, a <= 60 -> (a >? 60) = false)
      by (intros a Ha; rewrite Z.gtb_ltb; apply Z.ltb_ge; lia).
    assert (LT : forall a, 60 < a -> (a >? 60) = true)
      by (intros a Ha; rewrite Z.gtb_ltb; apply Z.ltb_lt; lia).
    split; [exact E1|]. split; [exact E3|]. split; [|repeat split].
    + intros smoker bmi age. unfold estimate.
      now rewrite (base_range_entry _ _ _ _ E1 E3).
    + intros smoker bmi age Hs Hb Ha. rewrite estimated_cost_sum.
      rewrite (eqb_yes_false _ Hs), (float_le_not_gt _ _ Hb), (GT _ Ha). cbv iota; ring.
    + intros smoker bmi age Hs. rewrite !estimated_cost_sum.
      rewrite (eqb_yes_false _ Hs). simpl String.eqb; cbv iota; ring.
    + intros smoker bmi bmi' age Hb Hb'. rewrite !estimated_cost_sum.
      rewrite (float_le_not_gt _ _ Hb), Hb'. cbv iota; ring.
    + intros smoker bmi age age' Ha Ha'. rewrite !estimated_cost_sum.
      rewrite (GT _ Ha), (LT _ Ha'). cbv iota; ring.
    + intros smoker bmi bmi' age age' Hs Hb Hb' Ha Ha'. rewrite !estimated_cost_sum.
      rewrite (eqb_yes_false _ Hs), (float_le_not_gt _ _ Hb), Hb', (GT _ Ha), (LT _ Ha').
      simpl String.eqb; cbv iota; ring.
    + intros smoker bmi age. apply estimated_cost_sum.
    + intros smoker q age Hs Hq Ha. rewrite estimated_cost_sum.
      rewrite (eqb_yes_false _ Hs), (GT _ Ha),
        (float_le_not_gt _ _ (proj2 (float_le_finite q 30) Hq)).
      cbv iota; ring.
    + intros smoker q q' age Hq Hq'. rewrite !estimated_cost_sum.
      rewrite (float_le_not_gt _ _ (proj2 (float_le_finite q 30) Hq)),
        (proj2 (float_gt_finite q' 30) Hq').
      cbv iota; ring.
    + intros smoker q q' age age' Hs Hq Hq' Ha Ha'. rewrite !estimated_cost_sum.
      rewrite (eqb_yes_false _ Hs), (GT _ Ha), (LT _ Ha'),
        (float_le_not_gt _ _ (proj2 (float_le_finite q 30) Hq)),
        (proj2 (float_gt_finite q' 30) Hq').
      simpl String.eqb; cbv iota; ring.
  - split; [|split].
    + eexists; eexists. split; [reflexivity|]. split; [reflexivity|].
      split; reflexivity.
    + split; [intros q; apply (float_gt_finite q 30)|].
      split; [intros q; apply (float_le_finite q 30)|]. auto.
    + eexists; eexists; eexists.
      split; [reflexivity|]. split; [reflexivity|]. split; [reflexivity|].
      repeat split; reflexivity.
Qed.

Lemma C1_witness :
  exists heavy old all,
    estimate "dental care" "private" "no" (Finite 31) 30
    = inr (mkEstimate heavy (2000, 2500)) /\
    estimate "dental care" "private" "no" (Finite 22) 61
    = inr (mkEstimate old (2000, 2500)) /\
    estimate "dental care" "private" "yes" (Finite 31) 61
    = inr (mkEstimate all (2000, 2500)) /\
    (heavy == 2750)%Q /\ (old == 3250)%Q /\ (all == 4750)%Q.
Proof.
  apply (C1_point_estimate "dental care" "private"); pick.
Defined.

(** C3: whenever the report shows a summary, the range in it is exactly the
    table's entry for the chosen treatment and tier, the same for every
    smoker answer, bmi and age; those three enter the point estimate only. *)
Theorem C3_range_not_adjusted
        (f : RawFrame) (i : Inputs)
        (name city_title type_title : string) (cost : Q) (typical : CostRange) :
  In (Summary name city_title type_title cost typical) (printed (run f i)) ->
  exists by_type,
    dict_get (chosen_treatment i) treatment_costs = Some by_type /\
    dict_get (chosen_hospital_type i) by_type = Some typical /\
    (forall smoker bmi age,
        estimate (chosen_treatment i) (chosen_hospital_type i) smoker bmi age
        = inr (mkEstimate (estimated_cost typical smoker bmi age) typical)) /\
    (exists age bmi,
        in_age i = Some age /\ in_bmi i = Some bmi /\
        cost = estimated_cost typical (PyStr.lower (PyStr.strip (in_smoker i))) bmi age).
Proof.
  intros H.
  assert (NS : forall l, existsb is_summary l = false ->
                         ~ In (Summary name city_title type_title cost typical) l).
  { intros l E Hin.
    assert (X : existsb is_summary l = true)
      by (apply existsb_exists; eexists; split; [exact Hin | reflexivity]).
    congruence. }
  destruct (run_cases f i)
    as [(e & _ & R)
       | [(df & _ & _ & [(asked & m & R & Q & _) | [_ R]])
         | [(df & _ & _ & _ & R) | (df & _ & _ & _ & C)]]].
  - rewrite R in H. destruct H.
  - rewrite R in H. simpl in H. apply in_app_or in H as [H | [H | []]].
    + now apply NS in H.
    + discriminate H.
  - rewrite R in H. simpl in H. destruct H as [H | [H | []]]; discriminate H.
  - rewrite R in H. simpl in H. destruct H as [H | [H | []]]; discriminate H.
  - destruct C as (age & bmi & by_type & r & tail & A & B & HT & HK & P & Q & _).
    rewrite P in H. simpl in H.
    destruct H as [H | [H | [H | H]]]; try discriminate H; [|now apply NS in H].
    inversion H; subst. exists by_type. repeat split; try assumption.
    + intros smoker bmi' age'. unfold estimate.
      now rewrite (base_range_entry _ _ _ _ HT HK).
    + exists age, bmi. auto.
Qed.

Lemma C3_witness :
  exists by_type,
    dict_get "cardiac" treatment_costs = Some by_type /\
    dict_get "private" by_type = Some (150000, 200000) /\
    (forall smoker bmi age,
        estimate "cardiac" "private" smoker bmi age
        = inr (mkEstimate (estimated_cost (150000, 200000) smoker bmi age)
                          (150000, 200000))) /\
    (exists age bmi,
        Some 30 = Some age /\ Some (Finite 22) = Some bmi /\
        (350000 # 2) = estimated_cost (150000, 200000) "no" bmi age).
Proof.
  apply (C3_range_not_adjusted sample_sheet (sample_inputs " Mumbai" "Cardiac ")
           "Asha" "Mumbai" "Private" (350000 # 2) (150000, 200000)).
  vm_compute. right. right. left. reflexivity.
Defined.

(* ================================================================== *)
(** ** Fatal errors *)

Lemma rejected_iff (i : Inputs) :
  rejected i = true <->
  in_age i = None \/ in_bmi i = None \/
  ~ In (chosen_treatment i) (dict_keys treatment_costs) \/
  ~ In (chosen_hospital_type i) hospital_types.
Proof.
  unfold rejected. rewrite <- !mem_false.
  destruct (in_age i), (in_bmi i); try (split; [auto | reflexivity]).
  rewrite orb_true_iff, !negb_true_iff. split.
  - intros [H | H]; auto.
  - intros [H | [H | [H | H]]]; try discriminate; auto.
Qed.

Lemma plain_title_from (s : string) (prev : bool) :
  Markup.plain (PyStr.title_from prev s) = Markup.plain s.
Proof.
  revert prev. induction s as [|c r IH]; intros prev; simpl; [reflexivity|].
  rewrite IH. f_equal. f_equal.
  destruct prev; destruct c as [[] [] [] [] [] [] [] []]; reflexivity.
Qed.

Lemma load_error_inv (f : RawFrame) (e : PyExc) :
  load f = inl e ->
  (sheet_incomplete f = true /\
   e = ValueError_missing (missing_columns (normalize_columns (raw_columns f)))) \/
  (sheet_incomplete f = false /\
   exists name, In name text_columns /\ e = AttributeError_str name).
Proof.
  unfold load, sheet_incomplete.
  destruct (missing_columns (normalize_columns (raw_columns f))) as [|m ms].
  - destruct (repeated_text_column _) as [name|] eqn:R; [|discriminate].
    intros H. inversion H. right. split; [reflexivity|]. exists name.
    split; [|reflexivity]. unfold repeated_text_column in R.
    now apply find_some in R.
  - intros H. inversion H. left. auto.
Qed.

(** C4, as the claim states it, fails: with every input valid, a sheet
    without its city column still ends the run abnormally. *)
Lemma C4_missing_column_also_fatal :
  ~ (forall f i, exit_status (run f i) = Some 1 <-> rejected i = true).
Proof.
  intros H.
  specialize (H sheet_without_city (sample_inputs "mumbai" "cardiac")).
  destruct H as [H _]. specialize (H eq_refl). discriminate H.
Qed.

(** C4 (amended): for a name, a city and a treatment typed without a square
    bracket, the run ends without showing any estimate exactly when the sheet
    does not load, or age or bmi does not parse, or the chosen treatment is
    not a key of the cost table, or the hospital type is not one of public,
    private, specialty; and it then ends with exit status 1.  A sheet that
    does not load is an uncaught exception before anything is printed: a
    [ValueError] naming the required columns that are missing, or, when none
    is missing, an [AttributeError] on a text column present twice.  On a
    loaded sheet each of the other three ends in [sys.exit(1)] right after
    its own message, with nothing but the banner and the list of treatments
    printed before it. *)
Theorem C4_fatal_before_estimate (f : RawFrame) (i : Inputs) :
  Markup.plain (PyStr.strip (in_name i)) = true ->
  Markup.plain (chosen_city i) = true ->
  Markup.plain (chosen_treatment i) = true ->
  (shows_estimate (run f i) = false <->
   (exists e, load f = inl e) \/
   in_age i = None \/ in_bmi i = None \/
   ~ In (chosen_treatment i) (dict_keys treatment_costs) \/
   ~ In (chosen_hospital_type i) hospital_types) /\
  (shows_estimate (run f i) = false -> exit_status (run f i) = Some 1) /\
  (forall e, load f = inl e ->
     run f i = Uncaught e [] /\
     ((sheet_incomplete f = true /\
       e = ValueError_missing (missing_columns (normalize_columns (raw_columns f)))) \/
      (sheet_incomplete f = false /\
       exists name, In name text_columns /\ e = AttributeError_str name))) /\
  (forall df, load f = inr df ->
     (in_age i = None \/ in_bmi i = None ->
      run f i = Exit1 [Banner; ErrorLine InvalidNumericInput]) /\
     (in_age i <> None -> in_bmi i <> None ->
      ~ In (chosen_treatment i) (dict_keys treatment_costs) ->
      run f i = Exit1 [Banner; AvailableTreatments (dict_keys treatment_costs);
                       ErrorLine (UnknownTreatment (chosen_treatment i)
                                    (dict_keys treatment_costs))]) /\
     (in_age i <> None -> in_bmi i <> None ->
      In (chosen_treatment i) (dict_keys treatment_costs) ->
      ~ In (chosen_hospital_type i) hospital_types ->
      run f i = Exit1 [Banner; AvailableTreatments (dict_keys treatment_costs);
                       ErrorLine InvalidHospitalType])).
Proof.
  intros Pn Pc Pt.
  assert (PT : Markup.plain (PyStr.title (chosen_city i)) = true)
    by (unfold PyStr.title; now rewrite plain_title_from).
  split; [|split; [|split]].
  - rewrite <- rejected_iff.
    destruct (run_cases f i)
      as [(e & L & R)
         | [(df & L & J & [(asked & m & R & Q & _) | [N _]])
           | [(df & _ & _ & N & _) | (df & L & J & _ & C)]]].
    + rewrite R. split; [intros _; left; now exists e | reflexivity].
    + rewrite R. unfold shows_estimate. simpl printed. rewrite existsb_app, Q.
      split; [intros _; right; exact J | reflexivity].
    + congruence.
    + rewrite Pn, PT in N. discriminate N.
    + destruct C as (age & bmi & by_type & r & tail & _ & _ & _ & _ & P & _ & _).
      unfold shows_estimate. rewrite P. simpl. split; [discriminate|].
      intros [[e E] | E]; congruence.
  - destruct (run_cases f i)
      as [(e & L & R)
         | [(df & L & J & [(asked & m & R & Q & _) | [N _]])
           | [(df & _ & _ & N & _) | (df & L & J & _ & C)]]].
    + rewrite R. reflexivity.
    + rewrite R. reflexivity.
    + congruence.
    + rewrite Pn, PT in N. discriminate N.
    + destruct C as (age & bmi & by_type & r & tail & _ & _ & _ & _ & P & _ & _).
      unfold shows_estimate. rewrite P. simpl. discriminate.
  - intros e L. split; [unfold run; now rewrite L | now apply load_error_inv].
  - intros df L. unfold run. rewrite L. cbv zeta. split; [|split].
    + intros [E | E]; rewrite E; [|destruct (in_age i)]; reflexivity.
    + intros A B HT. destruct (in_age i); [|congruence]. destruct (in_bmi i); [|congruence].
      apply mem_false in HT. now rewrite HT, Pt.
    + intros A B HT HK. destruct (in_age i); [|congruence]. destruct (in_bmi i); [|congruence].
      apply mem_In in HT. apply mem_false in HK. now rewrite HT, HK.
Qed.

Lemma C4_witness :
  (shows_estimate (run sample_sheet (sample_inputs "Mumbai" "ortho")) = false <->
   (exists e, load sample_sheet = inl e) \/
   in_age (sample_inputs "Mumbai" "ortho") = None \/
   in_bmi (sample_inputs "Mumbai" "ortho") = None \/
   ~ In (chosen_treatment (sample_inputs "Mumbai" "ortho")) (dict_keys treatment_costs) \/
   ~ In (chosen_hospital_type (sample_inputs "Mumbai" "ortho")) hospital_types) /\
  (shows_estimate (run sample_sheet (sample_inputs "Mumbai" "ortho")) = false ->
   exit_status (run sample_sheet (sample_inputs "Mumbai" "ortho")) = Some 1) /\
  (forall e, load sample_sheet = inl e ->
     run sample_sheet (sample_inputs "Mumbai" "ortho") = Uncaught e [] /\
     ((sheet_incomplete sample_sheet = true /\
       e = ValueError_missing
             (missing_columns (normalize_columns (raw_columns sample_sheet)))) \/
      (sheet_incomplete sample_sheet = false /\
       exists name, In name text_columns /\ e = AttributeError_str name))) /\
  (forall df, load sample_sheet = inr df ->
     (in_age (sample_inputs "Mumbai" "ortho") = None \/
      in_bmi (sample_inputs "Mumbai" "ortho") = None ->
      run sample_sheet (sample_inputs "Mumbai" "ortho")
      = Exit1 [Banner; ErrorLine InvalidNumericInput]) /\
     (in_age (sample_inputs "Mumbai" "ortho") <> None ->
      in_bmi (sample_inputs "Mumbai" "ortho") <> None ->
      ~ In (chosen_treatment (sample_inputs "Mumbai" "ortho")) (dict_keys treatment_costs) ->
      run sample_sheet (sample_inputs "Mumbai" "ortho")
      = Exit1 [Banner; AvailableTreatments (dict_keys treatment_costs);
               ErrorLine (UnknownTreatment
                            (chosen_treatment (sample_inputs "Mumbai" "ortho"))
                            (dict_keys treatment_costs))]) /\
     (in_age (sample_inputs "Mumbai" "ortho") <> None ->
      in_bmi (sample_inputs "Mumbai" "ortho") <> None ->
      In (chosen_treatment (sample_inputs "Mumbai" "ortho")) (dict_keys treatment_costs) ->
      ~ In (chosen_hospital_type (sample_inputs "Mumbai" "ortho")) hospital_types ->
      run sample_sheet (sample_inputs "Mumbai" "ortho")
      = Exit1 [Banner; AvailableTreatments (dict_keys treatment_costs);
               ErrorLine InvalidHospitalType])).
Proof.
  apply (C4_fatal_before_estimate sample_sheet (sample_inputs "Mumbai" "ortho"));
    reflexivity.
Defined.

(** A sheet with two headers that normalise to [city] has every required
    column and still does not load. *)
Example repeated_city_column_does_not_load :
  load (mkRawFrame ["hospital name"; "best_treatments"; "City"; "city "; "hospital _type"]
                   [ [Some "Apollo"; Some "cardiac"; Some "Mumbai"; Some "Pune";
                      Some "private"] ])
  = inl (AttributeError_str "city").
Proof. reflexivity. Qed.

(** A name that holds a closing tag is beyond the markup read here: the run is
    left open after the list of treatments, with no estimate shown. *)
Example name_with_markup_is_unread :
  run sample_sheet
      (mkInputs "[/b]" (Some 30) (Some (Finite 22)) "Female" "no" "west"
                "mumbai" "cardiac" "private")
  = Unread [Banner; AvailableTreatments (dict_keys treatment_costs)].
Proof. reflexivity. Qed.

(* ================================================================== *)
(** ** The hospital matcher *)

Lemma filter_both {A : Type} (p q : A -> bool) (l : list A) :
  filter (fun x => p x && q x) l = filter q (filter p l).
Proof.
  induction l as [|x l IH]; simpl; [reflexivity|].
  destruct (p x); simpl; [destruct (q x)|]; now rewrite IH.
Qed.

Lemma search_in_empty_text (pat : string) (p : PyRe.pattern) :
  PyRe.re_compile pat = Some p -> PyRe.re_search p "" = true -> pat = "".
Proof.
  intros C S. rewrite search_empty_text in S. apply empty_true in S. subst p.
  apply compile_length in C. destruct pat; [reflexivity | discriminate C].
Qed.

Lemma nearby_of_cases (pt pc : PyRe.pattern) (df res : list HospitalRecord) (retried : bool) :
  nearby_of pt pc df = (res, retried) ->
  (retried = true /\ primary pt pc df = [] /\ res = fallback pt df) \/
  (retried = false /\ primary pt pc df <> [] /\ res = primary pt pc df).
Proof.
  unfold nearby_of. destruct (primary pt pc df) eqn:E; simpl; intros H; inversion H; subst.
  - left. auto.
  - right. repeat split. discriminate.
Qed.

(** C2, evaluated where the code and the claim part: the city text is handed
    to [str.contains] as a regular expression, so the city [.] selects every
    row with a non-empty city.  On the sheet below the script finds Apollo in
    the first query and prints no warning; by containment of the text [.] no
    city matches, and the claim has the city-less retry return both rows. *)
Theorem C2_city_text_read_as_pattern :
  match_hospitals [apollo; general] "cardiac" "." = Some ([apollo], false) /\
  spec_match [apollo; general] "cardiac" "." = ([apollo; general], true) /\
  printed (run sample_sheet (sample_inputs "." "cardiac")) =
    [Banner; AvailableTreatments (dict_keys treatment_costs);
     Summary "Asha" "." "Private" (350000 # 2) (150000, 200000);
     HospitalTable [(1%nat, "Apollo (Private)", "Mumbai")];
     BarChart [("public", 170000 # 2); ("private", 350000 # 2); ("specialty", 650000 # 2)];
     Completed].
Proof. repeat split; vm_compute; reflexivity. Qed.

(** C5, as the claim states it, fails: a row with a blank city is returned
    by the city-less retry. *)
Lemma C5_blank_city_row_returned :
  ~ (forall df treatment city_query res retried r,
        match_hospitals df treatment city_query = Some (res, retried) ->
        best_treatments r = "" \/ city r = "" ->
        ~ In r res).
Proof.
  intros H.
  apply (H [general] "cardiac" "pune" [general] true general).
  - reflexivity.
  - right. reflexivity.
  - left. reflexivity.
Qed.

(** C5 (amended): for a treatment text and a city text without
    regular-expression operators other than [.], a row returned for a
    non-empty treatment text, by the first query or by the retry, has a
    non-empty treatments field; and a row returned by the first query for a
    non-empty city text has a non-empty city field.  The retry does not look
    at the city field at all: it returns every row whose treatments field
    matches, a row with a blank city included. *)
Theorem C5_blank_fields
        (df : list HospitalRecord) (treatment city_query : string)
        (res : list HospitalRecord) (retried : bool) (r : HospitalRecord) :
  match_hospitals df treatment city_query = Some (res, retried) ->
  In r res ->
  (treatment <> "" -> best_treatments r <> "") /\
  (retried = false -> city_query <> "" -> city r <> "") /\
  (retried = true ->
   forall pt r',
     PyRe.re_compile (PyStr.lower treatment) = Some pt ->
     In r' df -> bt_mask pt r' = true -> In r' res).
Proof.
  unfold match_hospitals.
  destruct (PyRe.re_compile (PyStr.lower treatment)) as [pt|] eqn:Ct; [|discriminate].
  destruct (PyRe.re_compile (PyStr.lower city_query)) as [pc|] eqn:Cc; [|discriminate].
  intros H Hin. inversion H as [N]; clear H.
  assert (B : bt_mask pt r = true /\ (retried = false -> city_mask pc r = true)
              /\ (retried = true -> res = fallback pt df)).
  { destruct (nearby_of_cases _ _ _ _ _ N) as [(-> & _ & ->) | (-> & _ & ->)].
    - apply filter_In in Hin as [_ Hin]. repeat split; [exact Hin | discriminate].
    - apply filter_In in Hin as [_ Hin]. apply andb_true_iff in Hin as [Hb Hc].
      repeat split; auto; discriminate. }
  destruct B as (Bt & Bc & Bf). split; [|split].
  - intros Ht E. apply Ht. apply lower_empty.
    apply (search_in_empty_text _ pt Ct).
    unfold bt_mask in Bt. now rewrite E in Bt.
  - intros Hr Hq E. apply Hq. apply lower_empty.
    apply (search_in_empty_text _ pc Cc).
    specialize (Bc Hr). unfold city_mask in Bc. now rewrite E in Bc.
  - intros Hr pt' r' Ct' Hdf Hm. rewrite (Bf Hr).
    assert (pt' = pt) by congruence. subst pt'.
    apply filter_In. auto.
Qed.

Lemma C5_witness :
  ("cardiac" <> "" -> best_treatments apollo <> "") /\
  (true = false -> "pune" <> "" -> city apollo <> "") /\
  (true = true ->
   forall pt r',
     PyRe.re_compile (PyStr.lower "cardiac") = Some pt ->
     In r' [apollo; general; city_clinic] -> bt_mask pt r' = true ->
     In r' [apollo; general]).
Proof.
  apply (C5_blank_fields [apollo; general; city_clinic] "cardiac" "pune"
           [apollo; general] true apollo).
  - reflexivity.
  - left. reflexivity.
Defined.

(** C9: the rows of the first query (treatment and city) are among the rows
    of the city-less retry, in the same order: the first query is the retry
    filtered once more by city.  The same holds for the two queries as the
    specification words them. *)
Theorem C9_primary_within_fallback
        (df : list HospitalRecord) (pt pc : PyRe.pattern) (treatment city_query : string) :
  incl (primary pt pc df) (fallback pt df) /\
  primary pt pc df = filter (city_mask pc) (fallback pt df) /\
  Subseq (primary pt pc df) (fallback pt df) /\
  incl (spec_primary df treatment city_query) (spec_fallback df treatment).
Proof.
  assert (E : primary pt pc df = filter (city_mask pc) (fallback pt df))
    by apply filter_both.
  repeat split.
  - rewrite E. intros r Hr. now apply filter_In in Hr.
  - exact E.
  - rewrite E. apply filter_Subseq.
  - unfold spec_primary, spec_fallback. rewrite filter_both.
    intros r Hr. now apply filter_In in Hr.
Qed.

(** C10: the empty city text compiles to the empty pattern, which is found in
    every city field, a blank one included; so the first query returns what
    the city-less query returns, and the retry is taken exactly when no row's
    treatments field matches the treatment text. *)
Theorem C10_empty_city_query
        (df : list HospitalRecord) (treatment : string) (pt : PyRe.pattern) :
  PyRe.re_compile (PyStr.lower treatment) = Some pt ->
  PyRe.re_compile (PyStr.lower "") = Some [] /\
  (forall r, city_mask [] r = true) /\
  (forall s, PyStr.contains "" s = true) /\
  primary pt [] df = fallback pt df /\
  (exists retried,
      match_hospitals df treatment "" = Some (fallback pt df, retried) /\
      (retried = true <-> forall r, In r df -> bt_mask pt r = false)).
Proof.
  intros C.
  assert (M : forall r, city_mask [] r = true) by (intros r; apply search_nil).
  assert (E : primary pt [] df = fallback pt df).
  { unfold primary, fallback. apply filter_ext. intros r. rewrite M. apply andb_true_r. }
  repeat split; auto.
  - intros s. destruct s; reflexivity.
  - unfold match_hospitals. rewrite C. simpl PyRe.re_compile.
    unfold nearby_of. rewrite E.
    exists (empty (fallback pt df)). split.
    + destruct (fallback pt df); reflexivity.
    + rewrite empty_true. unfold fallback. apply filter_none.
Qed.

Lemma C10_witness :
  PyRe.re_compile (PyStr.lower "") = Some [] /\
  (forall r, city_mask [] r = true) /\
  (forall s, PyStr.contains "" s = true) /\
  primary (PyRe.literal "cardiac") [] [general; city_clinic]
  = fallback (PyRe.literal "cardiac") [general; city_clinic] /\
  (exists retried,
      match_hospitals [general; city_clinic] "Cardiac" ""
      = Some (fallback (PyRe.literal "cardiac") [general; city_clinic], retried) /\
      (retried = true <->
       forall r, In r [general; city_clinic] -> bt_mask (PyRe.literal "cardiac") r = false)).
Proof.
  apply (C10_empty_city_query [general; city_clinic] "Cardiac" (PyRe.literal "cardiac")).
  reflexivity.
Defined.

(** When no row of the sheet offers the chosen treatment the retry is empty
    too, and the run stops on the label column, after the summary and the
    warning have been printed. *)
Example run_without_any_match :
  run sample_sheet (sample_inputs "Pune" "orthopedic") =
  Uncaught (ValueError_setitem "hospital_info")
    [Banner; AvailableTreatments (dict_keys treatment_costs);
     Summary "Asha" "Pune" "Private" (45000 # 2) (20000, 25000);
     NoHospitalsInCity "Pune" "Orthopedic"].
Proof. reflexivity. Qed.

(* ================================================================== *)
(** ** The printed table *)

Lemma number_from_fst {A : Type} (l : list A) (i : nat) :
  map fst (number_from i l) = seq i (List.length l).
Proof.
  revert i. induction l as [|x l IH]; intros i; simpl; [reflexivity|].
  now rewrite IH.
Qed.

Lemma number_from_snd {A : Type} (l : list A) (i : nat) :
  map snd (number_from i l) = l.
Proof.
  revert i. induction l as [|x l IH]; intros i; simpl; [reflexivity|].
  now rewrite IH.
Qed.

Lemma match_hospitals_filter
      (df : list HospitalRecord) (treatment city_query : string)
      (res : list HospitalRecord) (retried : bool) :
  match_hospitals df treatment city_query = Some (res, retried) ->
  exists keep, res = filter keep df.
Proof.
  unfold match_hospitals.
  destruct (PyRe.re_compile (PyStr.lower treatment)) as [pt|]; [|discriminate].
  destruct (PyRe.re_compile (PyStr.lower city_query)) as [pc|]; [|discriminate].
  intros H. inversion H as [N]; clear H.
  destruct (nearby_of_cases _ _ _ _ _ N) as [(_ & _ & ->) | (_ & _ & ->)];
    eexists; reflexivity.
Qed.

(** C7: the rows returned for a query are rows of the sheet in the sheet's own
    order (the result is a filter of the sheet), and the table printed from
    them has the first ten of them, numbered from 1, in that order: its length
    is the smaller of 10 and the number of rows returned. *)
Theorem C7_order_and_cap
        (df : Frame) (treatment city_query : string)
        (res : list HospitalRecord) (retried : bool) :
  match_hospitals (rows df) treatment city_query = Some (res, retried) ->
  (exists keep, res = filter keep (rows df)) /\
  Subseq res (rows df) /\
  map (fun row => (snd (fst row), snd row)) (nearby_display (columns df) res)
  = map (fun r => (hospital_info (columns df) r, PyStr.title (city r))) (firstn 10 res) /\
  map (fun row => fst (fst row)) (nearby_display (columns df) res)
  = seq 1 (Nat.min 10 (List.length res)) /\
  List.length (nearby_display (columns df) res) = Nat.min 10 (List.length res) /\
  (List.length (nearby_display (columns df) res) <= 10)%nat.
Proof.
  intros H. destruct (match_hospitals_filter _ _ _ _ _ H) as [keep ->].
  assert (L : List.length (nearby_display (columns df) (filter keep (rows df)))
              = Nat.min 10 (List.length (filter keep (rows df)))).
  { unfold nearby_display. rewrite length_map.
    rewrite <- (length_map fst), number_from_fst, length_seq. apply length_firstn. }
  repeat split.
  - exists keep. reflexivity.
  - apply filter_Subseq.
  - unfold nearby_display. rewrite map_map. cbn [fst snd].
    rewrite <- (number_from_snd (firstn 10 (filter keep (rows df))) 1) at 2.
    now rewrite map_map.
  - unfold nearby_display. rewrite map_map. cbn [fst snd].
    change (fun x : nat * HospitalRecord => fst x) with (@fst nat HospitalRecord).
    now rewrite number_from_fst, length_firstn.
  - exact L.
  - rewrite L. apply Nat.le_min_l.
Qed.

Lemma C7_witness :
  (exists keep, twelve_wards = filter keep twelve_wards) /\
  Subseq twelve_wards twelve_wards /\
  map (fun row => (snd (fst row), snd row)) (nearby_display ["hospital_type"] twelve_wards)
  = map (fun r => (hospital_info ["hospital_type"] r, PyStr.title (city r)))
        (firstn 10 twelve_wards) /\
  map (fun row => fst (fst row)) (nearby_display ["hospital_type"] twelve_wards)
  = seq 1 (Nat.min 10 (List.length twelve_wards)) /\
  List.length (nearby_display ["hospital_type"] twelve_wards)
  = Nat.min 10 (List.length twelve_wards) /\
  (List.length (nearby_display ["hospital_type"] twelve_wards) <= 10)%nat.
Proof.
  apply (C7_order_and_cap (mkFrame ["hospital_type"] twelve_wards) "fever" "delhi"
           twelve_wards false).
  reflexivity.
Defined.




(* ================================================================== *)
(** ** Further properties: text normalisation *)

Ltac by_char c := destruct c as [[] [] [] [] [] [] [] []]; reflexivity.

Lemma is_space_lower (c : ascii) :
  PyStr.is_space (PyStr.lower_char c) = PyStr.is_space c.
Proof. by_char c. Qed.

Lemma lower_char_idem (c : ascii) :
  PyStr.lower_char (PyStr.lower_char c) = PyStr.lower_char c.
Proof. by_char c. Qed.



Lemma lower_idem (s : string) : PyStr.lower (PyStr.lower s) = PyStr.lower s.
Proof.
  induction s as [|c r IH]; simpl; [reflexivity|].
  now rewrite lower_char_idem, IH.
Qed.

Lemma lstrip_lower (s : string) :
  PyStr.lstrip (PyStr.lower s) = PyStr.lower (PyStr.lstrip s).
Proof.
  induction s as [|c r IH]; simpl; [reflexivity|].
  rewrite is_space_lower. destruct (PyStr.is_space c); [exact IH | reflexivity].
Qed.

Lemma rstrip_lower (s : string) :
  PyStr.rstrip (PyStr.lower s) = PyStr.lower (PyStr.rstrip s).
Proof.
  induction s as [|c r IH]; simpl; [reflexivity|].
  rewrite IH, is_space_lower.
  destruct (PyStr.rstrip r); simpl; [destruct (PyStr.is_space c)|]; reflexivity.
Qed.

Lemma strip_lower (s : string) :
  PyStr.strip (PyStr.lower s) = PyStr.lower (PyStr.strip s).
Proof. unfold PyStr.strip. now rewrite lstrip_lower, rstrip_lower. Qed.

Lemma lstrip_head (s : string) : starts_with_space (PyStr.lstrip s) = false.
Proof.
  induction s as [|c r IH]; simpl; [reflexivity|].
  destruct (PyStr.is_space c) eqn:E; [exact IH | exact E].
Qed.

Lemma lstrip_fixed (s : string) :
  starts_with_space s = false -> PyStr.lstrip s = s.
Proof. destruct s as [|c r]; simpl; [reflexivity|]. now intros ->. Qed.

Lemma rstrip_head (s : string) :
  starts_with_space s = false -> starts_with_space (PyStr.rstrip s) = false.
Proof.
  destruct s as [|c r]; simpl; [reflexivity|]. intros E.
  destruct (PyStr.rstrip r); [rewrite E|]; simpl; auto.
Qed.

Lemma rstrip_tail (s : string) : ends_with_space (PyStr.rstrip s) = false.
Proof.
  induction s as [|c r IH]; simpl; [reflexivity|].
  destruct (PyStr.rstrip r) as [|d r'] eqn:E.
  - destruct (PyStr.is_space c) eqn:S; simpl; [reflexivity | exact S].
  - exact IH.
Qed.

Lemma rstrip_idem (s : string) : PyStr.rstrip (PyStr.rstrip s) = PyStr.rstrip s.
Proof.
  induction s as [|c r IH]; simpl; [reflexivity|].
  destruct (PyStr.rstrip r) as [|d r'] eqn:E.
  - destruct (PyStr.is_space c) eqn:S; simpl; [reflexivity | now rewrite S].
  - change (PyStr.rstrip (String c (String d r')))
      with (match PyStr.rstrip (String d r') with
            | EmptyString => if PyStr.is_space c then EmptyString else String c EmptyString
            | r'' => String c r''
            end).
    now rewrite IH.
Qed.

Lemma strip_idem (s : string) : PyStr.strip (PyStr.strip s) = PyStr.strip s.
Proof.
  unfold PyStr.strip.
  rewrite (lstrip_fixed (PyStr.rstrip (PyStr.lstrip s))).
  - apply rstrip_idem.
  - apply rstrip_head, lstrip_head.
Qed.


Lemma normal_form_fixed (s : string) :
  PyStr.lower (PyStr.strip (PyStr.lower (PyStr.strip s))) = PyStr.lower (PyStr.strip s).
Proof. now rewrite strip_lower, strip_idem, lower_idem. Qed.

(** X1 (normalisation): stripping and lower-casing twice is doing it once.
    A sheet whose header names are already in the form of line 19 loads to
    the same frame, and answers retyped in the stripped, lower-case form the
    script compares them in (lines 63-71) give the same run. *)
Theorem normalisation_idempotent (f : RawFrame) (i : Inputs) :
  normalize_columns (normalize_columns (raw_columns f)) = normalize_columns (raw_columns f) /\
  load (mkRawFrame (normalize_columns (raw_columns f)) (raw_rows f)) = load f /\
  run f (canonical i) = run f i.
Proof.
  assert (N : normalize_columns (normalize_columns (raw_columns f))
              = normalize_columns (raw_columns f)).
  { unfold normalize_columns. rewrite map_map. apply map_ext.
    intros c. apply normal_form_fixed. }
  split; [exact N|]. split.
  - unfold load. simpl raw_columns. simpl raw_rows. now rewrite N.
  - unfold run, chosen_city, chosen_treatment, chosen_hospital_type, canonical.
    cbn [in_name in_age in_bmi in_smoker in_city in_treatment in_hospital_type].
    unfold chosen_city, chosen_treatment, chosen_hospital_type.
    now rewrite !normal_form_fixed.
Qed.

(* ================================================================== *)
(** ** Further properties: loading the sheet *)

Lemma find_None_iff {A : Type} (p : A -> bool) (l : list A) :
  find p l = None <-> forall x, In x l -> p x = false.
Proof.
  induction l as [|x l IH]; simpl.
  - split; [intros _ y [] | reflexivity].
  - destruct (p x) eqn:E; split.
    + discriminate.
    + intros H. specialize (H x (or_introl eq_refl)). congruence.
    + intros H y [<- | Hy]; [exact E | now apply IH].
    + intros H. apply IH. intros y Hy. apply H. now right.
Qed.

(** X2 (start-up check): the sheet is loaded exactly when each of the four
    expected names is the stripped, lower-cased form of one of its header
    names and none of the three text columns comes twice under its name.
    Otherwise the run stops there: with a [ValueError] that names the expected
    columns that are absent, and only those, in the order of [expected_cols];
    or, when none is absent, with an [AttributeError] on a text column that
    comes twice. *)
Theorem load_checks_columns (f : RawFrame) :
  ((exists df, load f = inr df) <->
   (forall c, In c expected_cols ->
              exists raw, In raw (raw_columns f) /\ PyStr.lower (PyStr.strip raw) = c) /\
   (forall name, In name text_columns ->
                 (occurrences name (rename_columns (normalize_columns (raw_columns f)))
                  <= 1)%nat))
  /\
  (forall e, load f = inl e ->
             (exists missing,
                 e = ValueError_missing missing /\
                 missing <> [] /\
                 Subseq missing expected_cols /\
                 (forall c, In c missing <->
                            In c expected_cols /\
                            ~ In c (normalize_columns (raw_columns f))))
             \/
             (exists name,
                 e = AttributeError_str name /\
                 In name text_columns /\
                 (1 < occurrences name (rename_columns (normalize_columns (raw_columns f))))%nat /\
                 forall c, In c expected_cols ->
                           In c (normalize_columns (raw_columns f)))).
Proof.
  assert (M : missing_columns (normalize_columns (raw_columns f)) = [] <->
              forall c, In c expected_cols ->
                        exists raw, In raw (raw_columns f) /\
                                    PyStr.lower (PyStr.strip raw) = c).
  { unfold missing_columns. rewrite filter_none. split; intros H c Hc.
    - specialize (H c Hc). apply negb_false_iff, mem_In in H.
      unfold normalize_columns in H. apply in_map_iff in H as (raw & E & Hr).
      exists raw. auto.
    - apply negb_false_iff, mem_In. destruct (H c Hc) as (raw & Hr & E).
      unfold normalize_columns. apply in_map_iff. exists raw. auto. }
  assert (R : repeated_text_column (rename_columns (normalize_columns (raw_columns f))) = None
              <-> forall name, In name text_columns ->
                    (occurrences name (rename_columns (normalize_columns (raw_columns f)))
                     <= 1)%nat).
  { unfold repeated_text_column. rewrite find_None_iff.
    split; intros H name Hn; specialize (H name Hn); now apply Nat.ltb_ge. }
  split.
  - rewrite <- M, <- R. unfold load.
    destruct (missing_columns (normalize_columns (raw_columns f))).
    + destruct (repeated_text_column _); split.
      * intros [df H]. discriminate H.
      * intros [_ H]. discriminate H.
      * auto.
      * intros _. eexists. reflexivity.
    + split; [intros [df H]; discriminate H | intros [H _]; discriminate H].
  - intros e. unfold load.
    destruct (missing_columns (normalize_columns (raw_columns f))) as [|m ms] eqn:E.
    + destruct (repeated_text_column _) as [name|] eqn:Rn; [|discriminate].
      intros H. inversion H; subst; clear H. right. exists name.
      unfold repeated_text_column in Rn. apply find_some in Rn as [Hn Hc].
      apply Nat.ltb_lt in Hc. repeat split; auto.
      intros c Hc'. unfold missing_columns in E.
      assert (X := proj1 (filter_none _ _) E c Hc').
      now apply negb_false_iff, mem_In in X.
    + intros H. inversion H; subst; clear H. left. exists (m :: ms).
      split; [reflexivity|]. split; [discriminate|].
      rewrite <- E. unfold missing_columns. split; [apply filter_Subseq|].
      intros c. rewrite filter_In, negb_true_iff, mem_false. reflexivity.
Qed.

(** X3 (shape of the loaded frame): loading keeps one record per sheet row
    and one name per header; the type column goes by the name
    [hospital_type] and no longer by [hospital _type]; every other name is
    the normalised header name. *)
Theorem load_keeps_shape (f : RawFrame) (df : Frame) :
  load f = inr df ->
  List.length (rows df) = List.length (raw_rows f) /\
  List.length (columns df) = List.length (raw_columns f) /\
  In "hospital_type" (columns df) /\
  ~ In "hospital _type" (columns df) /\
  (forall c, c <> "hospital_type" -> c <> "hospital _type" ->
             (In c (columns df) <-> In c (normalize_columns (raw_columns f)))).
Proof.
  intros L. assert (T := loaded_has_type_column f df L). apply mem_In in T.
  destruct (load_inv f df L) as (_ & _ & ->). simpl in *.
  unfold rename_columns, normalize_columns in *. rewrite !length_map.
  split; [reflexivity|]. split; [reflexivity|]. split; [exact T|]. split.
  - intros H. apply in_map_iff in H as (c & E & _).
    destruct (String.eqb c "hospital _type") eqn:B; [discriminate E|].
    apply String.eqb_neq in B. congruence.
  - intros c N1 N2. split.
    + intros H. apply in_map_iff in H as (c' & E & H').
      destruct (String.eqb c' "hospital _type"); [congruence | now subst].
    + intros H. apply in_map_iff. exists c. split; [|exact H].
      apply String.eqb_neq in N2. now rewrite N2.
Qed.

Lemma load_keeps_shape_witness :
  List.length [apollo; general; city_clinic] = List.length (raw_rows sample_sheet) /\
  List.length ["hospital name"; "best_treatments"; "city"; "hospital_type"]
  = List.length (raw_columns sample_sheet) /\
  In "hospital_type" ["hospital name"; "best_treatments"; "city"; "hospital_type"] /\
  ~ In "hospital _type" ["hospital name"; "best_treatments"; "city"; "hospital_type"] /\
  (forall c, c <> "hospital_type" -> c <> "hospital _type" ->
             (In c ["hospital name"; "best_treatments"; "city"; "hospital_type"]
              <-> In c (normalize_columns (raw_columns sample_sheet)))).
Proof.
  apply (load_keeps_shape sample_sheet
           (mkFrame ["hospital name"; "best_treatments"; "city"; "hospital_type"]
                    [apollo; general; city_clinic])).
  reflexivity.
Defined.

Lemma clean_trimmed (c : cell) :
  PyStr.strip (clean c) = clean c /\
  starts_with_space (clean c) = false /\
  ends_with_space (clean c) = false.
Proof.
  unfold clean. repeat split.
  - apply strip_idem.
  - unfold PyStr.strip. apply rstrip_head, lstrip_head.
  - unfold PyStr.strip. apply rstrip_tail.
Qed.

(** X4 (trimmed fields): in every record of a loaded sheet the treatments,
    city and type fields neither begin nor end with white space, so stripping
    them again changes nothing (lines 32-34). *)
Theorem loaded_fields_trimmed (f : RawFrame) (df : Frame) (r : HospitalRecord) :
  load f = inr df ->
  In r (rows df) ->
  (PyStr.strip (best_treatments r) = best_treatments r /\
   starts_with_space (best_treatments r) = false /\
   ends_with_space (best_treatments r) = false) /\
  (PyStr.strip (city r) = city r /\
   starts_with_space (city r) = false /\
   ends_with_space (city r) = false) /\
  (PyStr.strip (hospital_type r) = hospital_type r /\
   starts_with_space (hospital_type r) = false /\
   ends_with_space (hospital_type r) = false).
Proof.
  intros L Hr. destruct (load_inv f df L) as (_ & _ & ->). simpl in Hr.
  apply in_map_iff in Hr as (raw & <- & _).
  unfold read_row. simpl. repeat split; apply clean_trimmed.
Qed.

Lemma loaded_fields_trimmed_witness :
  (PyStr.strip (best_treatments apollo) = best_treatments apollo /\
   starts_with_space (best_treatments apollo) = false /\
   ends_with_space (best_treatments apollo) = false) /\
  (PyStr.strip (city apollo) = city apollo /\
   starts_with_space (city apollo) = false /\
   ends_with_space (city apollo) = false) /\
  (PyStr.strip (hospital_type apollo) = hospital_type apollo /\
   starts_with_space (hospital_type apollo) = false /\
   ends_with_space (hospital_type apollo) = false).
Proof.
  apply (loaded_fields_trimmed sample_sheet
           (mkFrame ["hospital name"; "best_treatments"; "city"; "hospital_type"]
                    [apollo; general; city_clinic]) apollo).
  - reflexivity.
  - left. reflexivity.
Defined.

(* ================================================================== *)
(** ** Further properties: the search *)

Lemma match_hospitals_inv
      (df : list HospitalRecord) (treatment city_query : string)
      (res : list HospitalRecord) (retried : bool) :
  match_hospitals df treatment city_query = Some (res, retried) ->
  exists pt pc,
    PyRe.re_compile (PyStr.lower treatment) = Some pt /\
    PyRe.re_compile (PyStr.lower city_query) = Some pc /\
    ((retried = true /\ primary pt pc df = [] /\ res = fallback pt df) \/
     (retried = false /\ primary pt pc df <> [] /\ res = primary pt pc df)).
Proof.
  unfold match_hospitals.
  destruct (PyRe.re_compile (PyStr.lower treatment)) as [pt|]; [|discriminate].
  destruct (PyRe.re_compile (PyStr.lower city_query)) as [pc|]; [|discriminate].
  intros H. inversion H as [N]; clear H. exists pt, pc.
  split; [reflexivity|]. split; [reflexivity|]. now apply nearby_of_cases.
Qed.

Lemma nearby_membership
      (pt pc : PyRe.pattern) (df res : list HospitalRecord) (retried : bool) :
  (retried = true /\ primary pt pc df = [] /\ res = fallback pt df) \/
  (retried = false /\ primary pt pc df <> [] /\ res = primary pt pc df) ->
  forall r, In r res <->
            In r df /\ bt_mask pt r = true /\ (retried = false -> city_mask pc r = true).
Proof.
  intros [(-> & _ & ->) | (-> & _ & ->)] r.
  - unfold fallback. rewrite filter_In. split.
    + intros [H1 H2]. repeat split; auto. discriminate.
    + intros (H1 & H2 & _). auto.
  - unfold primary. rewrite filter_In, andb_true_iff. split.
    + intros [H1 [H2 H3]]. auto.
    + intros (H1 & H2 & H3). auto.
Qed.

(** X5 (what is returned): a row is returned exactly when it is a row of the
    sheet whose treatments field matches the treatment text and, unless the
    city-less retry ran, whose city field matches the city text. *)
Theorem match_returns_matching_rows
        (df : list HospitalRecord) (treatment city_query : string)
        (res : list HospitalRecord) (retried : bool) :
  match_hospitals df treatment city_query = Some (res, retried) ->
  exists pt pc,
    PyRe.re_compile (PyStr.lower treatment) = Some pt /\
    PyRe.re_compile (PyStr.lower city_query) = Some pc /\
    forall r, In r res <->
              In r df /\ bt_mask pt r = true /\
              (retried = false -> city_mask pc r = true).
Proof.
  intros H. destruct (match_hospitals_inv _ _ _ _ _ H) as (pt & pc & Ct & Cc & N).
  exists pt, pc. split; [exact Ct|]. split; [exact Cc|].
  now apply nearby_membership.
Qed.

Lemma match_returns_matching_rows_witness :
  exists pt pc,
    PyRe.re_compile (PyStr.lower "Cardiac") = Some pt /\
    PyRe.re_compile (PyStr.lower "Pune") = Some pc /\
    forall r, In r [apollo; general] <->
              In r [apollo; general; city_clinic] /\ bt_mask pt r = true /\
              (true = false -> city_mask pc r = true).
Proof.
  apply (match_returns_matching_rows [apollo; general; city_clinic] "Cardiac" "Pune"
           [apollo; general] true).
  reflexivity.
Defined.

(** X6 (when the retry runs, when nothing is returned): the city-less retry
    runs exactly when no row matches both texts; the result is empty exactly
    when no row's treatments field matches the treatment text, and then the
    retry has run. *)
Theorem match_retry_and_empty
        (df : list HospitalRecord) (treatment city_query : string)
        (res : list HospitalRecord) (retried : bool) :
  match_hospitals df treatment city_query = Some (res, retried) ->
  exists pt pc,
    PyRe.re_compile (PyStr.lower treatment) = Some pt /\
    PyRe.re_compile (PyStr.lower city_query) = Some pc /\
    (retried = true <->
     forall r, In r df -> bt_mask pt r = true -> city_mask pc r = false) /\
    (res = [] <-> forall r, In r df -> bt_mask pt r = false) /\
    (res = [] -> retried = true).
Proof.
  intros H. destruct (match_hospitals_inv _ _ _ _ _ H) as (pt & pc & Ct & Cc & N).
  exists pt, pc. split; [exact Ct|]. split; [exact Cc|].
  assert (P : primary pt pc df = [] <->
              forall r, In r df -> bt_mask pt r = true -> city_mask pc r = false).
  { unfold primary. rewrite filter_none. split; intros A r Hr.
    - intros B. specialize (A r Hr). now rewrite B in A.
    - specialize (A r Hr). destruct (bt_mask pt r); [now rewrite A | reflexivity]. }
  assert (F : fallback pt df = [] <-> forall r, In r df -> bt_mask pt r = false)
    by (unfold fallback; apply filter_none).
  destruct N as [(-> & E & ->) | (-> & E & ->)].
  - rewrite <- P, F. repeat split; auto.
  - rewrite <- P. repeat split; try congruence.
    intros A. exfalso. apply E. apply P. intros r Hr B.
    rewrite (A r Hr) in B. discriminate B.
Qed.

Lemma match_retry_and_empty_witness :
  exists pt pc,
    PyRe.re_compile (PyStr.lower "orthopedic") = Some pt /\
    PyRe.re_compile (PyStr.lower "Mumbai") = Some pc /\
    (true = true <->
     forall r, In r [apollo; general; city_clinic] ->
               bt_mask pt r = true -> city_mask pc r = false) /\
    (@nil HospitalRecord = [] <->
     forall r, In r [apollo; general; city_clinic] -> bt_mask pt r = false) /\
    (@nil HospitalRecord = [] -> true = true).
Proof.
  apply (match_retry_and_empty [apollo; general; city_clinic] "orthopedic" "Mumbai" [] true).
  reflexivity.
Defined.

Lemma filter_related {A : Type} (R : A -> A -> Prop) (p q : A -> bool) (l l' : list A) :
  (forall x y, R x y -> p x = q y) ->
  Forall2 R l l' ->
  Forall2 R (filter p l) (filter q l').
Proof.
  intros E H. induction H as [|x y l l' Rxy _ IH]; simpl; [constructor|].
  rewrite (E x y Rxy). destruct (q y); [constructor|]; assumption.
Qed.

(** X7 (letter case): the search ignores letter case on both sides.  Two
    sheets whose rows differ at most in the case of their treatments and city
    fields, asked with texts that differ at most in case, either both fall
    outside the patterns read here or return results that correspond row by
    row, with the same answer on whether the retry ran. *)
Theorem match_ignores_case
        (df df' : list HospitalRecord) (treatment treatment' city_query city_query' : string) :
  Forall2 same_up_to_case df df' ->
  PyStr.lower treatment = PyStr.lower treatment' ->
  PyStr.lower city_query = PyStr.lower city_query' ->
  match match_hospitals df treatment city_query,
        match_hospitals df' treatment' city_query' with
  | Some (res, retried), Some (res', retried') =>
      Forall2 same_up_to_case res res' /\ retried = retried'
  | None, None => True
  | _, _ => False
  end.
Proof.
  intros D Et Ec. unfold match_hospitals. rewrite <- Et, <- Ec.
  destruct (PyRe.re_compile (PyStr.lower treatment)) as [pt|]; [|exact I].
  destruct (PyRe.re_compile (PyStr.lower city_query)) as [pc|]; [|exact I].
  assert (B : forall x y, same_up_to_case x y -> bt_mask pt x = bt_mask pt y)
    by (intros x y [E _]; unfold bt_mask; now rewrite E).
  assert (C : forall x y, same_up_to_case x y ->
                          bt_mask pt x && city_mask pc x = bt_mask pt y && city_mask pc y)
    by (intros x y [E1 E2]; unfold bt_mask, city_mask; now rewrite E1, E2).
  assert (P := filter_related _ _ _ _ _ C D).
  assert (F := filter_related _ _ _ _ _ B D).
  unfold nearby_of. fold (primary pt pc df) (primary pt pc df') in P |- *.
  fold (fallback pt df) (fallback pt df') in F |- *.
  destruct P as [|x y l l' Rxy Rl]; simpl.
  - split; [exact F | reflexivity].
  - split; [now constructor | reflexivity].
Qed.

Lemma match_ignores_case_witness :
  match match_hospitals [apollo] "cardiac" "mumbai",
        match_hospitals [apollo_capitals] "CARDIAC" "Mumbai" with
  | Some (res, retried), Some (res', retried') =>
      Forall2 same_up_to_case res res' /\ retried = retried'
  | None, None => True
  | _, _ => False
  end.
Proof.
  apply (match_ignores_case [apollo] [apollo_capitals] "cardiac" "CARDIAC" "mumbai" "Mumbai").
  - constructor; [split; reflexivity | constructor].
  - reflexivity.
  - reflexivity.
Defined.

Lemma prefix_iff (x s : string) :
  prefix x s = true <-> exists post, s = x ++ post.
Proof.
  revert s. induction x as [|a x IH]; intros s.
  - split; [intros _; now exists s | intros _; destruct s; reflexivity].
  - destruct s as [|b s].
    + split; [intros H; discriminate H | intros [post H]; discriminate H].
    + change (prefix (String a x) (String b s))
        with (match ascii_dec a b with left _ => prefix x s | right _ => false end).
      destruct (ascii_dec a b) as [->|N].
      * rewrite IH. split; intros [post H]; exists post; simpl in *; congruence.
      * split; [discriminate | intros [post H]; simpl in H; congruence].
Qed.

Lemma contains_cons (x : string) (b : ascii) (s : string) :
  PyStr.contains x (String b s) = prefix x (String b s) || PyStr.contains x s.
Proof. reflexivity. Qed.

Lemma contains_nil (x : string) : PyStr.contains x "" = prefix x "".
Proof. simpl. apply orb_false_r. Qed.

Lemma contains_iff (x s : string) :
  PyStr.contains x s = true <-> exists pre post, s = pre ++ x ++ post.
Proof.
  split.
  - induction s as [|b s IH].
    + rewrite contains_nil. intros H.
      apply prefix_iff in H as [post H]. now exists "", post.
    + rewrite contains_cons, orb_true_iff. intros [H | H].
      * apply prefix_iff in H as [post H]. now exists "", post.
      * destruct (IH H) as (pre & post & E). exists (String b pre), post.
        simpl. now rewrite E.
  - intros (pre & post & E). subst s.
    induction pre as [|a pre IH].
    + assert (P : prefix x (x ++ post) = true) by (apply prefix_iff; now exists post).
      change ("" ++ x ++ post) with (x ++ post).
      destruct (x ++ post); [rewrite contains_nil | rewrite contains_cons, P]; auto.
    + change (String a pre ++ x ++ post) with (String a (pre ++ x ++ post)).
      rewrite contains_cons, IH. apply orb_true_r.
Qed.

(** X8 (texts without operators): when neither text has a character that
    means something in a regular expression, as is the case for every key of
    the cost table, the search always answers, and a row is returned exactly
    when its lower-cased treatments field has the lower-cased treatment text
    as a contiguous block and, unless the retry ran, its lower-cased city
    field has the lower-cased city text as a contiguous block. *)
Theorem plain_text_is_containment
        (df : list HospitalRecord) (treatment city_query : string) :
  PyRe.plain (PyStr.lower treatment) = true ->
  PyRe.plain (PyStr.lower city_query) = true ->
  exists res retried,
    match_hospitals df treatment city_query = Some (res, retried) /\
    forall r, In r res <->
              In r df /\
              (exists pre post,
                  PyStr.lower (best_treatments r) = pre ++ PyStr.lower treatment ++ post) /\
              (retried = false ->
               exists pre post,
                 PyStr.lower (city r) = pre ++ PyStr.lower city_query ++ post).
Proof.
  intros Pt Pc.
  destruct (match_hospitals df treatment city_query) as [[res retried]|] eqn:M.
  2: { unfold match_hospitals in M.
       rewrite (compile_plain _ Pt), (compile_plain _ Pc) in M. discriminate M. }
  exists res, retried. split; [reflexivity|]. intros r.
  destruct (match_hospitals_inv _ _ _ _ _ M) as (pt & pc & Ct & Cc & N).
  rewrite (compile_plain _ Pt) in Ct. rewrite (compile_plain _ Pc) in Cc.
  inversion Ct; inversion Cc; subst pt pc.
  rewrite (nearby_membership _ _ _ _ _ N r).
  unfold bt_mask, city_mask. rewrite !search_literal, !contains_iff. reflexivity.
Qed.

Lemma plain_text_is_containment_witness :
  exists res retried,
    match_hospitals [apollo; general; city_clinic] "cardiac" "mumbai" = Some (res, retried) /\
    forall r, In r res <->
              In r [apollo; general; city_clinic] /\
              (exists pre post,
                  PyStr.lower (best_treatments r) = pre ++ PyStr.lower "cardiac" ++ post) /\
              (retried = false ->
               exists pre post,
                 PyStr.lower (city r) = pre ++ PyStr.lower "mumbai" ++ post).
Proof.
  apply (plain_text_is_containment [apollo; general; city_clinic] "cardiac" "mumbai");
    reflexivity.
Defined.

(* ================================================================== *)
(** ** Further properties: the estimate *)

Lemma average_between (mn mx : Z) :
  mn <= mx ->
  (inject_Z mn <= average (mn, mx) /\ average (mn, mx) <= inject_Z mx)%Q.
Proof.
  intros H. unfold average, Qdiv, Qmult, Qinv, Qle, inject_Z. simpl. lia.
Qed.

Lemma estimated_cost_bounds (r : CostRange) (smoker : string) (bmi : pyfloat) (age : Z) :
  (average r <= estimated_cost r smoker bmi age /\
   estimated_cost r smoker bmi age <= average r + 2500)%Q.
Proof.
  rewrite estimated_cost_sum.
  destruct (String.eqb smoker "yes"), (float_gt bmi 30), (age >? 60); split; lra.
Qed.

(** X9 (bounds of the estimate): for every treatment key and tier, whatever
    the profile, the point estimate is at least the average of the table's
    range, hence at least its lower end and not negative, and at most the
    average plus 2500. *)
Theorem estimate_bounds (T K smoker : string) (bmi : pyfloat) (age : Z) :
  In T (dict_keys treatment_costs) ->
  In K hospital_types ->
  exists mn mx cost,
    estimate T K smoker bmi age = inr (mkEstimate cost (mn, mx)) /\
    (average (mn, mx) <= cost)%Q /\
    (cost <= average (mn, mx) + 2500)%Q /\
    (inject_Z mn <= cost)%Q /\
    (0 <= cost)%Q.
Proof.
  intros HT HK.
  destruct (table_entry T K HT HK) as (by_type & mn & mx & E1 & _ & E3 & E4).
  exists mn, mx, (estimated_cost (mn, mx) smoker bmi age).
  destruct (estimated_cost_bounds (mn, mx) smoker bmi age) as [B1 B2].
  destruct (average_between mn mx (proj2 E4)) as [A1 _].
  assert (Z0 : (0 <= inject_Z mn)%Q)
    by (change 0%Q with (inject_Z 0); rewrite <- Zle_Qle; exact (proj1 E4)).
  split; [unfold estimate; now rewrite (base_range_entry _ _ _ _ E1 E3)|].
  generalize dependent (inject_Z mn).
  generalize dependent (estimated_cost (mn, mx) smoker bmi age).
  generalize (average (mn, mx)).
  intros a c B1 B2 m A1 Z0. repeat split; lra.
Qed.

Lemma estimate_bounds_witness :
  exists mn mx cost,
    estimate "cold/flu" "public" "yes" PosInf 75 = inr (mkEstimate cost (mn, mx)) /\
    (average (mn, mx) <= cost)%Q /\
    (cost <= average (mn, mx) + 2500)%Q /\
    (inject_Z mn <= cost)%Q /\
    (0 <= cost)%Q.
Proof.
  apply (estimate_bounds "cold/flu" "public" "yes" PosInf 75); pick.
Defined.

(** X10 (monotone surcharges): with the range and the other answers fixed,
    the estimate never goes down when the age goes up, nor when a finite bmi
    goes up; and a NaN bmi is never surcharged. *)
Theorem estimate_monotone
        (r : CostRange) (smoker : string) (bmi : pyfloat) (age age' : Z) (q q' : Q) :
  age <= age' ->
  (q <= q')%Q ->
  (estimated_cost r smoker bmi age <= estimated_cost r smoker bmi age')%Q /\
  (estimated_cost r smoker (Finite q) age <= estimated_cost r smoker (Finite q') age)%Q /\
  (estimated_cost r smoker NaN age <= estimated_cost r smoker bmi age)%Q.
Proof.
  intros Ha Hq. rewrite !estimated_cost_sum. repeat split.
  - destruct (age >? 60) eqn:A, (age' >? 60) eqn:A'; try lra.
    rewrite Z.gtb_ltb in A, A'. apply Z.ltb_lt in A. apply Z.ltb_ge in A'. lia.
  - simpl float_gt.
    destruct (Qlt_le_dec (inject_Z 30) q), (Qlt_le_dec (inject_Z 30) q'); lra.
  - simpl float_gt. destruct (float_gt bmi 30); lra.
Qed.

Lemma estimate_monotone_witness :
  (estimated_cost (50%Z, 200%Z) "no" (Finite 22) 30%Z
   <= estimated_cost (50%Z, 200%Z) "no" (Finite 22) 61%Z)%Q /\
  (estimated_cost (50%Z, 200%Z) "no" (Finite 29) 30%Z
   <= estimated_cost (50%Z, 200%Z) "no" (Finite 31) 30%Z)%Q /\
  (estimated_cost (50%Z, 200%Z) "no" NaN 30%Z
   <= estimated_cost (50%Z, 200%Z) "no" (Finite 22) 30%Z)%Q.
Proof.
  apply (estimate_monotone (50, 200) "no" (Finite 22) 30 61 29 31).
  - lia.
  - vm_compute. discriminate.
Defined.

Lemma dict_get_None {V : Type} (k : string) (d : dict V) :
  dict_get k d = None <-> ~ In k (dict_keys d).
Proof.
  induction d as [|[k' v] d IH]; simpl.
  - split; [intros _ [] | reflexivity].
  - destruct (String.eqb k k') eqn:E.
    + apply String.eqb_eq in E. subst. split; [discriminate | intros H; exfalso; auto].
    + apply String.eqb_neq in E. rewrite IH. split.
      * intros H [H' | H']; [congruence | auto].
      * intros H H'. auto.
Qed.

(** X11 (lookups off the validated path): the range lookup of line 84 raises
    [KeyError] exactly for a treatment that is not a key of the table; for a
    key of the table and a tier outside public, private, specialty it raises
    nothing and answers the default [(0, 0)], so the estimate is then made of
    the surcharges alone. *)
Theorem base_range_off_table (T K smoker : string) (bmi : pyfloat) (age : Z) :
  (base_range T K = inl (KeyError T) <-> ~ In T (dict_keys treatment_costs)) /\
  (In T (dict_keys treatment_costs) -> ~ In K hospital_types ->
   base_range T K = inr (0, 0) /\
   exists cost,
     estimate T K smoker bmi age = inr (mkEstimate cost (0, 0)) /\
     (0 <= cost)%Q /\ (cost <= 2500)%Q).
Proof.
  split.
  - rewrite <- dict_get_None. unfold base_range.
    destruct (dict_get T treatment_costs); split; congruence.
  - intros HT HK.
    destruct (table_entry T "public" HT (or_introl eq_refl))
      as (by_type & _ & _ & E1 & E2 & _).
    assert (B : base_range T K = inr (0, 0)).
    { unfold base_range. rewrite E1. unfold dict_get_default.
      rewrite <- E2 in HK. apply dict_get_None in HK.
      unfold CostRange in *. now rewrite HK. }
    split; [exact B|]. unfold estimate. rewrite B.
    eexists. split; [reflexivity|].
    destruct (estimated_cost_bounds (0, 0) smoker bmi age) as [B1 B2].
    assert (A : (average (0%Z, 0%Z) == 0)%Q) by reflexivity.
    generalize dependent (estimated_cost (0, 0) smoker bmi age).
    generalize dependent (average (0, 0)).
    intros a A c B1 B2. split; lra.
Qed.

(** X12 (the chart): for a treatment key the chart has one bar per tier, in
    the order public, private, specialty, and the bar of a tier is the
    average of the range that line 84 finds for that tier, that is, the
    estimate before any surcharge. *)
Theorem chart_matches_table (T : string) :
  In T (dict_keys treatment_costs) ->
  exists bars,
    avg_cost_data T = inr bars /\
    map fst bars = hospital_types /\
    forall K, In K hospital_types ->
              exists r, base_range T K = inr r /\
                        dict_get K bars = Some (average r) /\
                        dict_get K bars = Some (estimated_cost r "no" (Finite 0) 0).
Proof.
  intros HT. each_of HT;
    (eexists; split; [reflexivity|]; split; [reflexivity|];
     intros K HK; each_of HK;
     (eexists; split; [reflexivity|]; split; reflexivity)).
Qed.

Lemma chart_matches_table_witness :
  exists bars,
    avg_cost_data "fever" = inr bars /\
    map fst bars = hospital_types /\
    forall K, In K hospital_types ->
              exists r, base_range "fever" K = inr r /\
                        dict_get K bars = Some (average r) /\
                        dict_get K bars = Some (estimated_cost r "no" (Finite 0) 0).
Proof.
  apply (chart_matches_table "fever"); pick.
Defined.

(* ================================================================== *)
(** ** Further properties: what is printed *)

Lemma not_among {P : Output -> bool} (o : Output) (l : list Output) :
  existsb P l = false -> P o = true -> ~ In o l.
Proof.
  intros E Ho Hin.
  assert (X : existsb P l = true) by (apply existsb_exists; now exists o).
  congruence.
Qed.




(** X14 (an error message ends the run): whenever an error message is
    printed, it is the last thing printed, the run ends in [sys.exit(1)], and
    neither an estimate nor another error message comes before it. *)
Theorem error_line_is_last (f : RawFrame) (i : Inputs) (m : Message) :
  In (ErrorLine m) (printed (run f i)) ->
  exists asked,
    run f i = Exit1 (asked ++ [ErrorLine m])%list /\
    existsb is_summary asked = false /\
    existsb is_error_line asked = false.
Proof.
  intros H.
  destruct (run_cases f i)
    as [(e & _ & R)
       | [(df & _ & _ & [(asked & m' & R & Q1 & Q2) | [_ R]])
         | [(df & _ & _ & _ & R) | (df & _ & _ & _ & C)]]].
  - rewrite R in H. destruct H.
  - rewrite R in H |- *. simpl in H.
    apply in_app_or in H as [H | [H | []]].
    + now apply (not_among _ _ Q2) in H.
    + inversion H; subst. exists asked. auto.
  - rewrite R in H. simpl in H. destruct H as [H | [H | []]]; discriminate H.
  - rewrite R in H. simpl in H. destruct H as [H | [H | []]]; discriminate H.
  - destruct C as (age & bmi & by_type & r & tail & _ & _ & _ & _ & P & _ & Q).
    rewrite P in H. simpl in H.
    destruct H as [H | [H | [H | H]]]; try discriminate H.
    now apply (not_among _ _ Q) in H.
Qed.

Lemma error_line_is_last_witness :
  exists asked,
    run sample_sheet (sample_inputs "Mumbai" "ortho")
    = Exit1 (asked ++ [ErrorLine (UnknownTreatment "ortho" (dict_keys treatment_costs))])%list /\
    existsb is_summary asked = false /\
    existsb is_error_line asked = false.
Proof.
  apply (error_line_is_last sample_sheet (sample_inputs "Mumbai" "ortho")
           (UnknownTreatment "ortho" (dict_keys treatment_costs))).
  vm_compute. right. right. left. reflexivity.
Defined.

(** X15 (the warning): in what the search prints, the warning that no
    hospital was found in the city comes first and is there exactly when no
    row matches both texts; it names the title-cased city and treatment, and
    nothing after it is a warning. *)
Theorem warning_iff_no_local_match
        (df : Frame) (treatment city_lc : string) (st : Stage) :
  recommend df treatment city_lc = Some st ->
  exists pt pc,
    PyRe.re_compile (PyStr.lower treatment) = Some pt /\
    PyRe.re_compile (PyStr.lower city_lc) = Some pc /\
    (primary pt pc (rows df) = [] ->
     exists rest,
       stage_output st
       = NoHospitalsInCity (PyStr.title city_lc) (PyStr.title treatment) :: rest /\
       existsb is_warning rest = false) /\
    (primary pt pc (rows df) <> [] -> existsb is_warning (stage_output st) = false).
Proof.
  unfold recommend, stage_output.
  destruct (match_hospitals (rows df) treatment city_lc) as [[nearby retried]|] eqn:M;
    [|discriminate].
  destruct (match_hospitals_inv _ _ _ _ _ M) as (pt & pc & Ct & Cc & N).
  intros H. exists pt, pc. split; [exact Ct|]. split; [exact Cc|].
  destruct N as [(-> & E & ->) | (-> & E & ->)].
  - split; [|congruence]. intros _.
    destruct (fallback pt (rows df)); inversion H; subst;
      eexists; split; reflexivity.
  - split; [congruence|]. intros _.
    destruct (primary pt pc (rows df)); inversion H; subst; reflexivity.
Qed.

Lemma warning_iff_no_local_match_witness :
  exists pt pc,
    PyRe.re_compile (PyStr.lower "fever") = Some pt /\
    PyRe.re_compile (PyStr.lower "pune") = Some pc /\
    (primary pt pc [apollo; general; city_clinic] = [] ->
     exists rest,
       [NoHospitalsInCity "Pune" "Fever"; HospitalTable [(1%nat, "nan (Public)", "Delhi")]]
       = NoHospitalsInCity (PyStr.title "pune") (PyStr.title "fever") :: rest /\
       existsb is_warning rest = false) /\
    (primary pt pc [apollo; general; city_clinic] <> [] ->
     existsb is_warning
       [NoHospitalsInCity "Pune" "Fever"; HospitalTable [(1%nat, "nan (Public)", "Delhi")]]
     = false).
Proof.
  apply (warning_iff_no_local_match
           (mkFrame ["hospital name"; "best_treatments"; "city"; "hospital_type"]
                    [apollo; general; city_clinic])
           "fever" "pune"
           (Shown [NoHospitalsInCity "Pune" "Fever";
                   HospitalTable [(1%nat, "nan (Public)", "Delhi")]])).
  reflexivity.
Defined.
